(** * microkernel-mod-cluster: the supervisor/worker lifecycle

    A shallow embedding of [src/microkernel-mod-cluster.js] (the [prepare]
    and [stop] methods of the module and the closures they register) and
    the properties of its lifecycle.

    How the JavaScript is read:

    - the kernel registry ([kernel.rs]), the Node [cluster] facility and the
      handler tables are fields of one [World] record that every method and
      closure reads and updates;
    - every call that leaves the module ([kernel.sv], [cluster.fork],
      [worker.send], [worker.disconnect], [worker.kill], [setInterval],
      [clearTimeout], the promise's [resolve]) is written, in program order,
      to the list of [Event]s a computation returns;
    - a computation may throw; [try_catch] is the [try { } catch (ex) { }]
      of the source and [new_promise] rejects when its executor throws;
    - the closures handed to [cluster.on], [process.on], [kernel.latch] and
      [setInterval] are constructors of small inductive types, with the
      variables they capture as arguments, and are run by an interpreter;
    - what Node and the operating system do between two callbacks (workers
      appear, disconnect, die) is not decided here: theorems quantify over
      the content of [cluster.workers] at each callback.  Within one
      callback every worker is looked up and inspected before the calls
      made on it, and a call on one worker does not change what the
      callback reads about another one.

    Two things belong to libraries outside the repository and are taken as
    parameters of the development: the text [sprintf] renders, and whether
    a given call of [worker.kill] throws. *)

From Stdlib Require Import ZArith List String Ascii Bool Lia DecimalString.
Import ListNotations.

Open Scope string_scope.
Open Scope Z_scope.

(** ** Data *)

(** [kernel.rs("options:options")]: the option this module registers
    ([cluster], an integer) and the two flags of the daemon module. *)
Record Options := mkOptions {
  opt_cluster : Z;
  opt_daemon : bool;
  opt_daemon_kill : bool
}.

(** A Node cluster worker, as far as the module looks at it:
    [worker.id], [worker.process.pid], the truth value of [worker.suicide],
    and the answers of [worker.isConnected()] and [worker.isDead()]. *)
Module Worker.
Record t := mk {
  id : Z;
  pid : Z;
  suicide : bool;
  isConnected : bool;
  isDead : bool
}.
End Worker.

(** The payload of the [listening] event. *)
Record Address := mkAddress {
  address : string;
  port : Z;
  addressType : Z
}.

(** The Node [cluster] module: [cluster.isMaster], the object
    [cluster.workers] (worker id to worker, in the order of [Object.keys];
    being an object it has every key once, which the one theorem that
    counts calls per worker states as [NoDup]) and [cluster.worker]
    (defined in a worker process only). *)
Record Cluster := mkCluster {
  isMaster : bool;
  workers : list (Z * Worker.t);
  worker : option Worker.t
}.

(** [cluster.isWorker] is the negation of [cluster.isMaster]. *)
Definition isWorker (c : Cluster) : bool := negb (isMaster c).

(** A value received over the IPC channel. *)
Inductive JsValue :=
| JsUndefined
| JsNull
| JsBool (b : bool)
| JsNumber (n : Z)
| JsString (s : string)
| JsObject.

(** [v === lit] for a string literal [lit]. *)
Definition strict_eq_string (v : JsValue) (lit : string) : bool :=
  match v with
  | JsString s => String.eqb s lit
  | _ => false
  end.

(** An argument of [sprintf]. *)
Inductive Arg :=
| ANum (n : Z)
| AStr (s : string)
| ANull.

(** A call that leaves the module. *)
Inductive Event :=
| EvSv (service : string) (args : list string)   (* kernel.sv(service, ...args) *)
| EvFork                                         (* cluster.fork() *)
| EvSend (id : Z) (msg : string)                 (* cluster.workers[id].send(msg) *)
| EvDisconnect (id : Z)                          (* cluster.workers[id].disconnect() *)
| EvKill (id : Z)                                (* cluster.workers[id].kill() *)
| EvSetInterval (handle : nat) (ms : Z)          (* setInterval(cb, ms) *)
| EvClearTimeout (handle : nat)                  (* clearTimeout(handle) *)
| EvResolve (promise : nat).                     (* resolve() *)

(** The closures of [prepare], by the table they are registered in. *)
Inductive ClusterHandler := OnFork | OnOnline | OnListening | OnDisconnect | OnExit.
Inductive ProcessHandler := OnMessage.
Inductive Latch := LoggerMsg | TitleTitle (mode : string).

(** What [cluster] emits to its listeners. *)
Inductive ClusterEvent :=
| CeFork (wk : Worker.t)
| CeOnline (wk : Worker.t)
| CeListening (wk : Worker.t) (addr : Address)
| CeDisconnect (wk : Worker.t)
| CeExit (wk : Worker.t) (code : option Z) (signal : option string).

Definition event_name (e : ClusterEvent) : string :=
  match e with
  | CeFork _ => "fork"
  | CeOnline _ => "online"
  | CeListening _ _ => "listening"
  | CeDisconnect _ => "disconnect"
  | CeExit _ _ _ => "exit"
  end.

Inductive PromiseState := Pending | Fulfilled | Rejected.

Inductive Exn := TypeError | KillError.

(** The state the module reads and writes. *)
Record World := mkWorld {
  options : Options;                              (* kernel.rs("options:options") *)
  rs_cluster : bool;                              (* kernel.rs("cluster") is set *)
  rs_procmode : option string;                    (* kernel.rs("ctx:procmode") *)
  cluster : Cluster;
  cluster_on : list (string * ClusterHandler);    (* cluster.on(name, handler) *)
  process_on : list (string * ProcessHandler);    (* process.on(name, handler) *)
  latches : list (string * Latch);                (* kernel.latch(hook, handler) *)
  timers : list nat;                              (* armed intervals *)
  promises : list (nat * PromiseState)            (* promises of stop *)
}.

Definition set_rs_cluster (w : World) : World :=
  mkWorld (options w) true (rs_procmode w) (cluster w) (cluster_on w)
          (process_on w) (latches w) (timers w) (promises w).

Definition set_rs_procmode (m : string) (w : World) : World :=
  mkWorld (options w) (rs_cluster w) (Some m) (cluster w) (cluster_on w)
          (process_on w) (latches w) (timers w) (promises w).

Definition add_cluster_on (n : string) (h : ClusterHandler) (w : World) : World :=
  mkWorld (options w) (rs_cluster w) (rs_procmode w) (cluster w)
          (cluster_on w ++ [(n, h)]) (process_on w) (latches w) (timers w)
          (promises w).

Definition add_process_on (n : string) (h : ProcessHandler) (w : World) : World :=
  mkWorld (options w) (rs_cluster w) (rs_procmode w) (cluster w) (cluster_on w)
          (process_on w ++ [(n, h)]) (latches w) (timers w) (promises w).

Definition add_latch (n : string) (h : Latch) (w : World) : World :=
  mkWorld (options w) (rs_cluster w) (rs_procmode w) (cluster w) (cluster_on w)
          (process_on w) (latches w ++ [(n, h)]) (timers w) (promises w).

Definition set_timers (ts : list nat) (w : World) : World :=
  mkWorld (options w) (rs_cluster w) (rs_procmode w) (cluster w) (cluster_on w)
          (process_on w) (latches w) ts (promises w).

Definition set_promises (ps : list (nat * PromiseState)) (w : World) : World :=
  mkWorld (options w) (rs_cluster w) (rs_procmode w) (cluster w) (cluster_on w)
          (process_on w) (latches w) (timers w) ps.

(** The environment replaces the content of [cluster.workers] between two
    callbacks. *)
Definition set_workers (ws : list (Z * Worker.t)) (w : World) : World :=
  mkWorld (options w) (rs_cluster w) (rs_procmode w)
          (mkCluster (isMaster (cluster w)) ws (worker (cluster w)))
          (cluster_on w) (process_on w) (latches w) (timers w) (promises w).

(** ** Computations *)

Inductive Result (A : Type) :=
| Ok (a : A)
| Throw (ex : Exn)
| OutOfFuel.
Arguments Ok {A} a.
Arguments Throw {A} ex.
Arguments OutOfFuel {A}.

Record Outcome (A : Type) := mkOutcome {
  result : Result A;
  world : World;
  events : list Event
}.
Arguments mkOutcome {A}.
Arguments result {A}.
Arguments world {A}.
Arguments events {A}.

Definition M (A : Type) := World -> Outcome A.

Definition ret {A} (a : A) : M A := fun w => mkOutcome (Ok a) w [].

(** The events [es] happened before the outcome [o]. *)
Definition prepend {A} (es : list Event) (o : Outcome A) : Outcome A :=
  mkOutcome (result o) (world o) (es ++ events o).

Definition bind {A B} (m : M A) (k : A -> M B) : M B := fun w =>
  let o := m w in
  match result o with
  | Ok a => prepend (events o) (k a (world o))
  | Throw ex => mkOutcome (Throw ex) (world o) (events o)
  | OutOfFuel => mkOutcome OutOfFuel (world o) (events o)
  end.

Notation "x <- m ;; k" := (bind m (fun x => k))
  (at level 61, m at next level, right associativity).
Notation "m ;; k" := (bind m (fun _ => k))
  (at level 61, right associativity).

Definition throw {A} (ex : Exn) : M A := fun w => mkOutcome (Throw ex) w [].

Definition out_of_fuel {A} : M A := fun w => mkOutcome OutOfFuel w [].

(** [try { body } catch (ex) { handler }] *)
Definition try_catch {A} (body : M A) (handler : Exn -> M A) : M A := fun w =>
  let o := body w in
  match result o with
  | Throw ex => prepend (events o) (handler ex (world o))
  | _ => o
  end.

Definition emit (e : Event) : M unit := fun w => mkOutcome (Ok tt) w [e].

Definition get : M World := fun w => mkOutcome (Ok w) w [].

Definition modify (f : World -> World) : M unit := fun w => mkOutcome (Ok tt) (f w) [].

(** [xs.forEach(f)] *)
Fixpoint forEach {A} (xs : list A) (f : A -> M unit) : M unit :=
  match xs with
  | [] => ret tt
  | x :: xs' => f x ;; forEach xs' f
  end.

(** [for (let i = i0; i < n; i++) body] *)
Fixpoint for_lt (fuel : nat) (i n : Z) (body : M unit) : M unit :=
  if i <? n then
    match fuel with
    | O => out_of_fuel
    | S fuel' => body ;; for_lt fuel' (i + 1) n body
    end
  else ret tt.

(** ** Calls into the host and into Node *)

(** [kernel.sv("log", facility, severity, msg)] *)
Definition sv_log (facility severity msg : string) : M unit :=
  emit (EvSv "log" [facility; severity; msg]).

(** [kernel.sv("shutdown", reason)] *)
Definition sv_shutdown (reason : string) : M unit :=
  emit (EvSv "shutdown" [reason]).

(** [kernel.rs("cluster", cluster)] and [kernel.rs("ctx:procmode", mode)] *)
Definition rs_put_cluster : M unit := modify set_rs_cluster.
Definition rs_put_procmode (mode : string) : M unit := modify (set_rs_procmode mode).

Definition cluster_fork : M unit := emit EvFork.

(** [Object.keys(cluster.workers)] *)
Definition workers_keys : M (list Z) :=
  w <- get ;; ret (map fst (workers (cluster w))).

Fixpoint assoc {A} (k : Z) (l : list (Z * A)) : option A :=
  match l with
  | [] => None
  | (k', a) :: l' => if k' =? k then Some a else assoc k l'
  end.

(** [cluster.workers[id]] *)
Definition workers_get (id : Z) : M (option Worker.t) :=
  w <- get ;; ret (assoc id (workers (cluster w))).

(** Reading a property or calling a method of [o]: a [TypeError] on
    [undefined]. *)
Definition deref {A} (o : option A) : M A :=
  match o with
  | Some a => ret a
  | None => throw TypeError
  end.

Definition worker_send (id : Z) (msg : string) : M unit := emit (EvSend id msg).
Definition worker_disconnect (id : Z) : M unit := emit (EvDisconnect id).

(** A handle that no promise and no timer of the world uses. *)
Definition fresh_handle (w : World) : nat :=
  S (Nat.max (fold_right Nat.max O (map fst (promises w)))
             (fold_right Nat.max O (timers w))).

Fixpoint promise_lookup (p : nat) (ps : list (nat * PromiseState)) : option PromiseState :=
  match ps with
  | [] => None
  | (q, s) :: ps' => if Nat.eqb q p then Some s else promise_lookup p ps'
  end.

Definition promise_state (p : nat) (w : World) : option PromiseState :=
  promise_lookup p (promises w).

(** A promise is settled once: only a pending one changes state. *)
Fixpoint settle (p : nat) (s : PromiseState) (ps : list (nat * PromiseState))
  : list (nat * PromiseState) :=
  match ps with
  | [] => []
  | (q, s0) :: ps' =>
      if Nat.eqb q p
      then (q, match s0 with Pending => s | _ => s0 end) :: ps'
      else (q, s0) :: settle p s ps'
  end.

(** [resolve()] of promise [p] *)
Definition resolve (p : nat) : M unit :=
  modify (fun w => set_promises (settle p Fulfilled (promises w)) w) ;;
  emit (EvResolve p).

(** [new Promise((resolve) => { executor })]: an executor that throws
    rejects the promise. *)
Definition new_promise (executor : nat -> M unit) : M nat := fun w =>
  let p := fresh_handle w in
  let o := executor p (set_promises ((p, Pending) :: promises w) w) in
  match result o with
  | Ok _ => mkOutcome (Ok p) (world o) (events o)
  | Throw _ =>
      mkOutcome (Ok p)
                (set_promises (settle p Rejected (promises (world o))) (world o))
                (events o)
  | OutOfFuel => mkOutcome OutOfFuel (world o) (events o)
  end.

(** [setInterval(cb, ms)], for the callback of the promise [p]; the handle
    is [p] itself. *)
Definition set_interval (p : nat) (ms : Z) : M unit :=
  modify (fun w => set_timers (p :: timers w) w) ;;
  emit (EvSetInterval p ms).

(** [clearTimeout(handle)] (Node clears an interval with it as well). *)
Definition clear_timeout (p : nat) : M unit :=
  modify (fun w => set_timers (filter (fun q => negb (Nat.eqb q p)) (timers w)) w) ;;
  emit (EvClearTimeout p).

(** A JavaScript integer number as a string: ["WORKER-" + 3]. *)
Definition js_string_of_int (n : Z) : string :=
  NilZero.string_of_int (Z.to_int n).

(** The truth value of a string or [null]. *)
Definition truthy (s : option string) : bool :=
  match s with
  | Some s' => negb (String.eqb s' "")
  | None => false
  end.

(** [code !== 0] *)
Definition code_nonzero (code : option Z) : bool :=
  match code with
  | Some c => negb (c =? 0)
  | None => true
  end.

Definition arg_of_code (code : option Z) : Arg :=
  match code with Some c => ANum c | None => ANull end.

Definition arg_of_signal (signal : option string) : Arg :=
  match signal with Some s => AStr s | None => ANull end.

(** A rendering of [%d] and [%s] used to run the examples: decimal
    integers, strings as they are. *)
Definition render_arg (a : Arg) : string :=
  match a with
  | ANum n => js_string_of_int n
  | AStr s => s
  | ANull => "null"
  end.

Fixpoint sprintf_ref (fmt : string) (args : list Arg) : string :=
  match fmt with
  | EmptyString => EmptyString
  | String c rest =>
      match rest with
      | String d rest' =>
          if (Ascii.eqb c "%" && (Ascii.eqb d "d" || Ascii.eqb d "s"))%bool
          then match args with
               | a :: args' => render_arg a ++ sprintf_ref rest' args'
               | [] => String c (sprintf_ref rest args)
               end
          else String c (sprintf_ref rest args)
      | EmptyString => String c EmptyString
      end
  end.

(** [cluster.isMaster ? "master" : "worker"] *)
Definition resolve_mode (c : Cluster) : string :=
  if isMaster c then "master" else "worker".

(** ** The module *)

Section ClusterModule.

(** [sprintf] of the sprintfjs package. *)
Variable sprintf : string -> list Arg -> string.

(** Whether [cluster.workers[id].kill()], called in a given world,
    throws. *)
Variable kill_throws : World -> Z -> bool.

(** [worker.kill()] *)
Definition worker_kill (id : Z) : M unit :=
  emit (EvKill id) ;;
  w <- get ;;
  if kill_throws w id then throw KillError else ret tt.

(** *** Closures registered by [prepare] in the master *)

Definition on_fork (wk : Worker.t) : M unit :=
  sv_log "cluster" "debug"
    (sprintf "worker #%d (pid: %d): forked"
       [ANum (Worker.id wk); ANum (Worker.pid wk)]).

Definition on_online (wk : Worker.t) : M unit :=
  sv_log "cluster" "trace"
    (sprintf "worker #%d (pid: %d): online"
       [ANum (Worker.id wk); ANum (Worker.pid wk)]).

Definition on_listening (wk : Worker.t) (addr : option Address) : M unit :=
  a <- deref addr ;;
  sv_log "cluster" "trace"
    (sprintf "worker #%d (pid: %d): listening to %s:%d [TCPv%d]"
       [ANum (Worker.id wk); ANum (Worker.pid wk);
        AStr (address a); ANum (port a); ANum (addressType a)]).

Definition on_disconnect (wk : Worker.t) : M unit :=
  sv_log "cluster" "trace"
    (sprintf "worker #%d (pid: %d): IPC channel disconnected"
       [ANum (Worker.id wk); ANum (Worker.pid wk)]).

Definition on_exit (wk : Worker.t) (code : option Z) (signal : option string)
  : M unit :=
  let way := if Worker.suicide wk then "expectedly" else "unexpectedly" in
  (if truthy signal then
     sv_log "cluster" "trace"
       (sprintf "worker #%d (pid: %d): %s terminated by signal %s"
          [ANum (Worker.id wk); ANum (Worker.pid wk); AStr way;
           arg_of_signal signal])
   else if code_nonzero code then
     sv_log "cluster" "trace"
       (sprintf "worker #%d (pid: %d): %s terminated due to error (exit code %d)"
          [ANum (Worker.id wk); ANum (Worker.pid wk); AStr way;
           arg_of_code code])
   else
     sv_log "cluster" "trace"
       (sprintf "worker #%d (pid: %d): %s terminated with success"
          [ANum (Worker.id wk); ANum (Worker.pid wk); AStr way])) ;;
  if negb (Worker.suicide wk) then
    sv_log "cluster" "info"
      (sprintf "re-forking WORKER process after unexpected termination" []) ;;
    cluster_fork
  else ret tt.

(** *** Closure registered by [prepare] in a worker *)

Definition on_message (msg : JsValue) : M unit :=
  if strict_eq_string msg "shutdown" then
    w <- get ;;
    wk <- deref (worker (cluster w)) ;;
    sv_log "cluster" "trace"
      (sprintf "worker #%d (pid: %d): received shutdown message"
         [ANum (Worker.id wk); ANum (Worker.pid wk)]) ;;
    sv_shutdown "received MASTER shutdown message"
  else ret tt.

(** *** The two decorators *)

Definition logger_msg (msg : string) : M string :=
  w <- get ;;
  id <- (if isWorker (cluster w) then
           wk <- deref (worker (cluster w)) ;;
           ret ("WORKER-" ++ js_string_of_int (Worker.id wk))%string
         else ret "MASTER") ;;
  ret ("[" ++ id ++ "]: " ++ msg)%string.

Definition title_title (mode : string) (title : string) : M string :=
  if String.eqb mode "master" then
    ret (title ++ " [MASTER]")%string
  else if String.eqb mode "worker" then
    w <- get ;;
    wk <- deref (worker (cluster w)) ;;
    ret (title ++ (" [WORKER-" ++ js_string_of_int (Worker.id wk) ++ "]"))%string
  else ret title.

(** *** Running the registered closures *)

Definition ce_worker (e : ClusterEvent) : Worker.t :=
  match e with
  | CeFork wk | CeOnline wk | CeListening wk _ | CeDisconnect wk
  | CeExit wk _ _ => wk
  end.

Definition run_cluster_handler (h : ClusterHandler) (e : ClusterEvent) : M unit :=
  match h with
  | OnFork => on_fork (ce_worker e)
  | OnOnline => on_online (ce_worker e)
  | OnListening =>
      on_listening (ce_worker e)
        (match e with CeListening _ a => Some a | _ => None end)
  | OnDisconnect => on_disconnect (ce_worker e)
  | OnExit =>
      match e with
      | CeExit wk code signal => on_exit wk code signal
      | _ => on_exit (ce_worker e) None None
      end
  end.

Definition listeners {H} (name : string) (tbl : list (string * H)) : list H :=
  map snd (filter (fun nh => String.eqb (fst nh) name) tbl).

(** [cluster] emits [e]: every listener of that name runs, in the order
    of registration. *)
Definition cluster_emit (e : ClusterEvent) : M unit :=
  w <- get ;;
  forEach (listeners (event_name e) (cluster_on w))
          (fun h => run_cluster_handler h e).

(** [process] emits ["message"]. *)
Definition process_emit_message (msg : JsValue) : M unit :=
  w <- get ;;
  forEach (listeners "message" (process_on w))
          (fun h => match h with OnMessage => on_message msg end).

Definition run_latch (l : Latch) (text : string) : M string :=
  match l with
  | LoggerMsg => logger_msg text
  | TitleTitle mode => title_title mode text
  end.

(** *** [prepare (kernel)] *)

Definition prepare (fuel : nat) : M unit :=
  w <- get ;;
  if opt_cluster (options w) =? 0 then ret tt
  else if (opt_daemon (options w) || opt_daemon_kill (options w))%bool then ret tt
  else
    rs_put_cluster ;;
    let mode := resolve_mode (cluster w) in
    rs_put_procmode mode ;;
    (if String.eqb mode "master" then
       modify (add_cluster_on "fork" OnFork) ;;
       modify (add_cluster_on "online" OnOnline) ;;
       modify (add_cluster_on "listening" OnListening) ;;
       modify (add_cluster_on "disconnect" OnDisconnect) ;;
       modify (add_cluster_on "exit" OnExit) ;;
       let workers := opt_cluster (options w) in
       sv_log "cluster" "info"
         (sprintf "forking %d WORKER processes" [ANum workers]) ;;
       for_lt fuel 0 workers cluster_fork
     else if String.eqb mode "worker" then
       modify (add_process_on "message" OnMessage)
     else ret tt) ;;
    modify (add_latch "logger:msg" LoggerMsg) ;;
    modify (add_latch "title:title" (TitleTitle mode)).

(** *** [stop (kernel)] *)

(** The callback of [setInterval], for the promise [p]. *)
Definition interval_cb (p : nat) : M unit :=
  workers <- workers_keys ;;
  if (Z.of_nat (List.length workers) =? 0) then
    clear_timeout p ;;
    resolve p
  else
    forEach workers (fun id =>
      o <- workers_get id ;;
      wk <- deref o ;;
      if negb (Worker.isDead wk) then
        sv_log "cluster" "trace"
          (sprintf "remaining worker #%d (pid: %d): to be killed now"
             [ANum (Worker.id wk); ANum (Worker.pid wk)]) ;;
        try_catch (worker_kill id) (fun _ => ret tt)
      else ret tt).

(** The executor of the promise [p]. *)
Definition stop_executor (p : nat) : M unit :=
  sv_log "cluster" "info" "shutdown WORKER processes" ;;
  ids <- workers_keys ;;
  forEach ids (fun id =>
    o <- workers_get id ;;
    wk <- deref o ;;
    if Worker.isConnected wk then
      worker_send id "shutdown" ;;
      worker_disconnect id
    else ret tt) ;;
  set_interval p 100.

(** [stop] returns [undefined] ([None]) or the promise. *)
Definition stop : M (option nat) :=
  w <- get ;;
  if negb (match rs_procmode w with
           | Some m => String.eqb m "master"
           | None => false
           end)
  then ret None
  else if (opt_daemon (options w) || opt_daemon_kill (options w))%bool then ret None
  else
    p <- new_promise stop_executor ;;
    ret (Some p).

(** The timer of promise [p] fires: its callback runs if the interval is
    still armed. *)
Definition tick (p : nat) : M unit :=
  w <- get ;;
  if existsb (Nat.eqb p) (timers w) then interval_cb p else ret tt.

(** The drain phase as the master lives it: before each firing of the
    timer the environment has brought [cluster.workers] to the next of
    [snapshots]. *)
Definition drain (p : nat) (snapshots : list (list (Z * Worker.t))) : M unit :=
  forEach snapshots (fun ws => modify (set_workers ws) ;; tick p).

End ClusterModule.

(** ** Reading a list of events *)

Definition is_fork (e : Event) : bool :=
  match e with EvFork => true | _ => false end.

(** The number of calls of [cluster.fork]. *)
Definition forks (es : list Event) : nat := List.length (filter is_fork es).

(** [kernel.sv("log", _, severity, _)] *)
Definition is_log_at (severity : string) (e : Event) : bool :=
  match e with
  | EvSv service [_; s; _] => (String.eqb service "log" && String.eqb s severity)%bool
  | _ => false
  end.

(** A call on the worker [cluster.workers[id]]. *)
Definition touches (id : Z) (e : Event) : bool :=
  match e with
  | EvSend i _ | EvDisconnect i | EvKill i => i =? id
  | _ => false
  end.

Definition is_resolve (p : nat) (e : Event) : bool :=
  match e with EvResolve q => Nat.eqb q p | _ => false end.

Definition pool_empty (ws : list (Z * Worker.t)) : bool :=
  match ws with [] => true | _ => false end.

(** What the graceful phase does with one entry of [cluster.workers]. *)
Definition directive (entry : Z * Worker.t) : list Event :=
  if Worker.isConnected (snd entry)
  then [EvSend (fst entry) "shutdown"; EvDisconnect (fst entry)]
  else [].

(** What one round of the drain phase does with one entry of
    [cluster.workers]. *)
Definition kill_round (sprintf : string -> list Arg -> string)
  (entry : Z * Worker.t) : list Event :=
  if Worker.isDead (snd entry) then []
  else [EvSv "log" ["cluster"; "trace";
                    sprintf "remaining worker #%d (pid: %d): to be killed now"
                      [ANum (Worker.id (snd entry)); ANum (Worker.pid (snd entry))]];
        EvKill (fst entry)].

(** The same, for the key [id] of the object [ws]. *)
Definition directive_of (ws : list (Z * Worker.t)) (id : Z) : list Event :=
  match assoc id ws with
  | Some wk => directive (id, wk)
  | None => []
  end.

Definition kill_round_of (sprintf : string -> list Arg -> string)
  (ws : list (Z * Worker.t)) (id : Z) : list Event :=
  match assoc id ws with
  | Some wk => kill_round sprintf (id, wk)
  | None => []
  end.

(** The five listeners of the master, as [prepare] registers them. *)
Definition lifecycle_handlers : list (string * ClusterHandler) :=
  [("fork", OnFork); ("online", OnOnline); ("listening", OnListening);
   ("disconnect", OnDisconnect); ("exit", OnExit)].

(** ** The decorators as the specification words them *)

Inductive ProcessMode := ModeMaster | ModeWorker | ModeDisabled.

(** The log line: prefix ["[MASTER]: "] or ["[WORKER-<id>]: "]. *)
Definition decorate_log (m : ProcessMode) (workerId : Z) (text : string) : string :=
  match m with
  | ModeMaster => "[MASTER]: " ++ text
  | ModeWorker => "[WORKER-" ++ js_string_of_int workerId ++ "]: " ++ text
  | ModeDisabled => text
  end%string.

(** The process title: append [" [MASTER]"] or [" [WORKER-<id>]"]. *)
Definition decorate_title (m : ProcessMode) (workerId : Z) (text : string) : string :=
  match m with
  | ModeMaster => text ++ " [MASTER]"
  | ModeWorker => text ++ " [WORKER-" ++ js_string_of_int workerId ++ "]"
  | ModeDisabled => text
  end%string.

(** The mode and worker id of an active process. *)
Definition mode_of (c : Cluster) : ProcessMode :=
  if isMaster c then ModeMaster else ModeWorker.

Definition worker_id_of (c : Cluster) : Z :=
  match worker c with
  | Some wk => Worker.id wk
  | None => 0
  end.


(** ** The rest of the module *)

(** An entry of the host's option table, as [latch] pushes it. *)
Record OptionDecl := mkOptionDecl {
  decl_name : string;
  decl_type : string;
  decl_default : Z;
  decl_help : string;
  decl_helpArg : string
}.

(** [{ name: "cluster", type: "integer", default: 0, help: ..., helpArg: ... }] *)
Definition cluster_option : OptionDecl :=
  mkOptionDecl "cluster" "integer" 0 "Enable clustering server mode" "INSTANCES".

(** The callback [latch (kernel)] hands to the hook ["options:options"]:
    [options.push({ ... })]. *)
Definition latch_options (options : list OptionDecl) : list OptionDecl :=
  options ++ [cluster_option].

Section ClusterRuns.

Variable sprintf : string -> list Arg -> string.

(** [cluster] emits the events [es] one after the other. *)
Definition cluster_emit_all (es : list ClusterEvent) : M unit :=
  forEach es (cluster_emit sprintf).

End ClusterRuns.

(** The exit of a worker that was not marked for shutdown. *)
Definition crashed (e : ClusterEvent) : bool :=
  match e with
  | CeExit wk _ _ => negb (Worker.suicide wk)
  | _ => false
  end.

(** The severity of the line a lifecycle event is logged with. *)
Definition event_severity (e : ClusterEvent) : string :=
  match e with
  | CeFork _ => "debug"
  | _ => "trace"
  end.

Definition is_kill (id : Z) (e : Event) : bool :=
  match e with EvKill i => i =? id | _ => false end.

Definition is_shutdown_call (e : Event) : bool :=
  match e with EvSv service _ => String.eqb service "shutdown" | _ => false end.


(** Calls a firing of the drain timer never makes. *)
Definition fork_send_or_disconnect (e : Event) : bool :=
  match e with
  | EvFork | EvSend _ _ | EvDisconnect _ | EvSetInterval _ _ => true
  | EvSv service _ => String.eqb service "shutdown"
  | _ => false
  end.

(** What neither [stop] nor the drain timer writes: everything but the
    intervals and the promises. *)
Definition same_host_state (w w' : World) : Prop :=
  options w' = options w /\
  rs_cluster w' = rs_cluster w /\
  rs_procmode w' = rs_procmode w /\
  cluster w' = cluster w /\
  cluster_on w' = cluster_on w /\
  process_on w' = process_on w /\
  latches w' = latches w.

(** ** Sample processes *)

(** A process before [prepare]: nothing published, nothing registered. *)
Definition sample_process (n : Z) (daemon master : bool) (self : option Worker.t)
  : World :=
  mkWorld (mkOptions n daemon false) false None (mkCluster master [] self)
          [] [] [] [] [].

Definition sample_master (n : Z) : World := sample_process n false true None.

(** The worker process of worker 3. *)
Definition sample_worker (n : Z) : World :=
  sample_process n false false (Some (Worker.mk 3 4713 false true false)).

(** Worker 1 is connected and alive, worker 2 alive with its channel
    closed, worker 3 connected and dead. *)
Definition sample_pool : list (Z * Worker.t) :=
  [(1, Worker.mk 1 4711 false true false);
   (2, Worker.mk 2 4712 false false false);
   (3, Worker.mk 3 4713 false true true)].

(** The master after [prepare], with [sample_pool] as [cluster.workers]. *)
Definition sample_running : World :=
  mkWorld (mkOptions 3 false false) true (Some "master")
          (mkCluster true sample_pool None)
          lifecycle_handlers [] 
          [("logger:msg", LoggerMsg); ("title:title", TitleTitle "master")]
          [] [].

(** The same master once its workers are gone. *)
Definition sample_drained : World := set_workers [] sample_running.

(** A process with [cluster] at 0 in whose registry the process mode
    ["master"] is published. *)
Definition sample_foreign_master : World :=
  mkWorld (mkOptions 0 false false) false (Some "master")
          (mkCluster true [] None) [] [] [] [] [].

(** A kernel in which another component has published the process mode
    ["master"], in the worker process of worker 3. *)
Definition sample_worker_foreign : World :=
  mkWorld (mkOptions 3 false false) false (Some "master")
          (mkCluster false [] (Some (Worker.mk 3 4713 false true false)))
          [] [] [] [] [].

(** [kill] throws for worker 2 and for no other. *)
Definition kill_throws_on_2 (w : World) (id : Z) : bool := id =? 2.

(** * Properties *)

Section Properties.

Variable sprintf : string -> list Arg -> string.
Variable kill_throws : World -> Z -> bool.

(** ** Computations, step by step *)

Lemma prepend_mk {A} (es es' : list Event) (r : Result A) (w : World) :
  prepend es (mkOutcome r w es') = mkOutcome r w (es ++ es').
Proof. reflexivity. Qed.

Lemma prepend_nil {A} (o : Outcome A) : prepend [] o = o.
Proof. destruct o; reflexivity. Qed.

Lemma prepend_prepend {A} (es es' : list Event) (o : Outcome A) :
  prepend es (prepend es' o) = prepend (es ++ es') o.
Proof. unfold prepend; cbn. now rewrite app_assoc. Qed.

Lemma bind_outcome {A B} (m : M A) (k : A -> M B) (w w' : World) (a : A)
      (es : list Event) :
  m w = mkOutcome (Ok a) w' es ->
  bind m k w = prepend es (k a w').
Proof. intros H. unfold bind. now rewrite H. Qed.

Lemma bind_ret {A B} (a : A) (k : A -> M B) (w : World) :
  bind (ret a) k w = k a w.
Proof. unfold bind, ret; cbn. apply prepend_nil. Qed.

Lemma bind_get {B} (k : World -> M B) (w : World) :
  bind get k w = k w w.
Proof. unfold bind, get; cbn. apply prepend_nil. Qed.

Lemma bind_modify {B} (f : World -> World) (k : unit -> M B) (w : World) :
  bind (modify f) k w = k tt (f w).
Proof. unfold bind, modify; cbn. apply prepend_nil. Qed.

Lemma bind_emit {B} (e : Event) (k : unit -> M B) (w : World) :
  bind (emit e) k w = prepend [e] (k tt w).
Proof. reflexivity. Qed.

Lemma bind_throw {A B} (ex : Exn) (k : A -> M B) (w : World) :
  bind (throw ex) k w = mkOutcome (Throw ex) w [].
Proof. reflexivity. Qed.

Lemma bind_bind {A B C} (m : M A) (k : A -> M B) (k' : B -> M C) (w : World) :
  bind (bind m k) k' w = bind m (fun a => bind (k a) k') w.
Proof.
  unfold bind. destruct (m w) as [[a| |] w1 es]; cbn; try reflexivity.
  destruct (k a w1) as [[b| |] w2 es2]; cbn; try reflexivity.
  unfold prepend; cbn. now rewrite app_assoc.
Qed.

Ltac open_calls :=
  unfold sv_log, sv_shutdown, cluster_fork, worker_send, worker_disconnect,
         rs_put_cluster, rs_put_procmode, workers_keys, workers_get,
         set_interval, clear_timeout, resolve, deref.

Ltac mstep :=
  repeat (first
    [ rewrite bind_bind
    | rewrite bind_get
    | rewrite bind_ret
    | rewrite bind_modify
    | rewrite bind_emit
    | rewrite bind_throw
    | rewrite prepend_prepend
    | rewrite prepend_mk ];
    cbv beta).

(** The setters, innermost first, on a world given by its fields. *)
Ltac world_fields :=
  cbv [set_rs_cluster set_rs_procmode add_cluster_on add_process_on add_latch
       set_timers set_promises set_workers
       options rs_cluster rs_procmode cluster cluster_on process_on latches
       timers promises isMaster workers worker].

(** ** The respawn policy *)

(** C1. When the master's [exit] listener runs for a worker that was not
    marked for shutdown ([worker.suicide] false), it calls [cluster.fork]
    exactly once and writes exactly one log line at severity [info], the
    one reporting the re-fork; for a worker that was marked, it calls
    [cluster.fork] zero times (and writes no [info] line).  The listener
    returns normally and leaves the state alone. *)
Theorem exit_respawn_policy :
  forall (wk : Worker.t) (code : option Z) (signal : option string) (w : World),
    let o := run_cluster_handler sprintf OnExit (CeExit wk code signal) w in
    result o = Ok tt /\
    world o = w /\
    forks (events o) = (if Worker.suicide wk then 0 else 1)%nat /\
    filter (is_log_at "info") (events o) =
      (if Worker.suicide wk then []
       else [EvSv "log" ["cluster"; "info";
                         sprintf "re-forking WORKER process after unexpected termination" []]]).
Proof.
  intros wk code signal w o. subst o. cbn [run_cluster_handler].
  unfold on_exit.
  destruct (Worker.suicide wk), (truthy signal), (code_nonzero code);
    cbn [negb]; open_calls; mstep; unfold emit, ret;
    repeat split; reflexivity.
Qed.

(** ** Startup *)

Lemma forks_repeat (n : nat) : forks (repeat EvFork n) = n.
Proof.
  induction n as [|n IH]; [reflexivity|].
  unfold forks in *. cbn. now rewrite IH.
Qed.

(** The loop [for (let i = ...; i < n; i++) cluster.fork()] ends, with one
    call per value of [i], as soon as the fuel covers [n - i]. *)
Lemma for_lt_fork (fuel : nat) :
  forall (i n : Z) (w : World),
    (Z.to_nat (n - i) <= fuel)%nat ->
    for_lt fuel i n cluster_fork w =
      mkOutcome (Ok tt) w (repeat EvFork (Z.to_nat (n - i))).
Proof.
  induction fuel as [|fuel IH]; intros i n w Hfuel; cbn [for_lt].
  - destruct (Z.ltb_spec i n) as [Hlt|Hge]; [lia|].
    replace (Z.to_nat (n - i)) with O by lia. reflexivity.
  - destruct (Z.ltb_spec i n) as [Hlt|Hge].
    + unfold cluster_fork at 1. rewrite bind_emit. cbv beta.
      rewrite IH by lia. rewrite prepend_mk.
      replace (Z.to_nat (n - i)) with (S (Z.to_nat (n - (i + 1)))) by lia.
      reflexivity.
    + replace (Z.to_nat (n - i)) with O by lia. reflexivity.
Qed.

(** [prepare] behind its two gates, in the master. *)
Lemma prepare_master (fuel : nat) (w : World) :
  opt_cluster (options w) <> 0 ->
  opt_daemon (options w) = false ->
  opt_daemon_kill (options w) = false ->
  isMaster (cluster w) = true ->
  (Z.to_nat (opt_cluster (options w)) <= fuel)%nat ->
  prepare sprintf fuel w =
    mkOutcome (Ok tt)
      (mkWorld (options w) true (Some "master") (cluster w)
               (cluster_on w ++ lifecycle_handlers) (process_on w)
               (latches w ++ [("logger:msg", LoggerMsg);
                              ("title:title", TitleTitle "master")])
               (timers w) (promises w))
      (EvSv "log" ["cluster"; "info";
                   sprintf "forking %d WORKER processes" [ANum (opt_cluster (options w))]]
         :: repeat EvFork (Z.to_nat (opt_cluster (options w)))).
Proof.
  intros Hc Hd Hk Hm Hfuel.
  unfold prepare, resolve_mode. rewrite bind_get. cbv beta.
  destruct (Z.eqb_spec (opt_cluster (options w)) 0) as [|_]; [contradiction|].
  rewrite Hd, Hk, Hm. cbn [orb String.eqb Ascii.eqb Bool.eqb andb].
  open_calls. mstep.
  erewrite bind_outcome
    by (apply for_lt_fork; rewrite Z.sub_0_r; exact Hfuel).
  mstep. unfold modify. rewrite prepend_mk.
  rewrite Z.sub_0_r, app_nil_r.
  destruct w. world_fields.
  unfold lifecycle_handlers. repeat rewrite <- app_assoc. reflexivity.
Qed.

(** [prepare] behind its two gates, in a worker. *)
Lemma prepare_worker (fuel : nat) (w : World) :
  opt_cluster (options w) <> 0 ->
  opt_daemon (options w) = false ->
  opt_daemon_kill (options w) = false ->
  isMaster (cluster w) = false ->
  prepare sprintf fuel w =
    mkOutcome (Ok tt)
      (mkWorld (options w) true (Some "worker") (cluster w)
               (cluster_on w) (process_on w ++ [("message", OnMessage)])
               (latches w ++ [("logger:msg", LoggerMsg);
                              ("title:title", TitleTitle "worker")])
               (timers w) (promises w))
      [].
Proof.
  intros Hc Hd Hk Hm.
  unfold prepare, resolve_mode. rewrite bind_get. cbv beta.
  destruct (Z.eqb_spec (opt_cluster (options w)) 0) as [|_]; [contradiction|].
  rewrite Hd, Hk, Hm. cbn [orb String.eqb Ascii.eqb Bool.eqb andb].
  open_calls. mstep. unfold modify.
  destruct w. world_fields.
  repeat rewrite <- app_assoc. reflexivity.
Qed.

(** [prepare] in front of its gates. *)
Lemma prepare_gated (fuel : nat) (w : World) :
  opt_cluster (options w) = 0 \/
  opt_daemon (options w) = true \/ opt_daemon_kill (options w) = true ->
  prepare sprintf fuel w = mkOutcome (Ok tt) w [].
Proof.
  intros H. unfold prepare. rewrite bind_get. cbv beta.
  destruct (Z.eqb_spec (opt_cluster (options w)) 0) as [|Hc]; [reflexivity|].
  destruct H as [H|[H|H]]; [contradiction| |]; rewrite H.
  - reflexivity.
  - rewrite orb_true_r. reflexivity.
Qed.

(** C3. In the master, with both daemon flags unset and a configured
    instance count [N > 0], [prepare] returns and has called
    [cluster.fork] exactly [N] times. *)
Theorem startup_forks_exactly_N :
  forall (fuel : nat) (w : World),
    0 < opt_cluster (options w) ->
    opt_daemon (options w) = false ->
    opt_daemon_kill (options w) = false ->
    isMaster (cluster w) = true ->
    (Z.to_nat (opt_cluster (options w)) <= fuel)%nat ->
    let o := prepare sprintf fuel w in
    result o = Ok tt /\
    Z.of_nat (forks (events o)) = opt_cluster (options w).
Proof.
  intros fuel w HN Hd Hk Hm Hfuel o. subst o.
  rewrite prepare_master by (assumption || lia).
  split; [reflexivity|].
  cbn [events]. unfold forks. cbn [filter is_fork].
  fold (forks (repeat EvFork (Z.to_nat (opt_cluster (options w))))).
  rewrite forks_repeat. lia.
Qed.

(** ** Shutdown: the gates and the graceful phase *)

Lemma stop_gated (w : World) :
  rs_procmode w <> Some "master" \/
  opt_daemon (options w) = true \/ opt_daemon_kill (options w) = true ->
  stop w = mkOutcome (Ok None) w [].
Proof.
  intros H. unfold stop. rewrite bind_get. cbv beta.
  destruct (rs_procmode w) as [m|] eqn:Hm; [|reflexivity].
  destruct (String.eqb_spec m "master") as [->|Hne]; [|reflexivity].
  cbn [negb].
  destruct H as [H|[H|H]]; [congruence| |]; rewrite H.
  - reflexivity.
  - rewrite orb_true_r. reflexivity.
Qed.

Lemma assoc_key {A} (ws : list (Z * A)) (id : Z) :
  In id (map fst ws) -> assoc id ws <> None.
Proof.
  induction ws as [|[k a] ws IH]; cbn; [tauto|].
  intros [->|Hin].
  - rewrite Z.eqb_refl. discriminate.
  - destruct (k =? id); [discriminate|auto].
Qed.

Lemma assoc_nodup {A} (ws : list (Z * A)) (id : Z) (a : A) :
  NoDup (map fst ws) -> In (id, a) ws -> assoc id ws = Some a.
Proof.
  induction ws as [|[k b] ws IH]; cbn; [tauto|].
  intros Hnd [Heq|Hin]; inversion Hnd as [|? ? Hnotin Hnd']; subst.
  - inversion Heq; subst. now rewrite Z.eqb_refl.
  - destruct (Z.eqb_spec k id) as [->|_]; [|auto].
    exfalso. apply Hnotin. change id with (fst (id, a)). now apply in_map.
Qed.

(** A loop whose body leaves the state alone. *)
Lemma forEach_events {A} (xs : list A) (f : A -> M unit) (g : A -> list Event)
      (w : World) :
  (forall x, In x xs -> f x w = mkOutcome (Ok tt) w (g x)) ->
  forEach xs f w = mkOutcome (Ok tt) w (flat_map g xs).
Proof.
  induction xs as [|x xs IH]; intros Hbody; [reflexivity|].
  cbn [forEach flat_map].
  erewrite bind_outcome by (apply Hbody; now left).
  rewrite IH by (intros; apply Hbody; now right).
  reflexivity.
Qed.

(** The loop of the graceful phase over the keys [ids] of
    [cluster.workers]. *)
Lemma graceful_loop (ids : list Z) (w : World) :
  (forall id, In id ids -> assoc id (workers (cluster w)) <> None) ->
  forEach ids (fun id =>
    o <- workers_get id ;;
    wk <- deref o ;;
    if Worker.isConnected wk then
      worker_send id "shutdown" ;;
      worker_disconnect id
    else ret tt) w =
  mkOutcome (Ok tt) w (flat_map (directive_of (workers (cluster w))) ids).
Proof.
  intros Hkeys. apply forEach_events. intros id Hid.
  open_calls. mstep. unfold directive_of, directive.
  destruct (assoc id (workers (cluster w))) as [wk|] eqn:Hwk;
    [|exfalso; exact (Hkeys id Hid Hwk)].
  mstep. cbn [fst snd].
  destruct (Worker.isConnected wk); mstep; reflexivity.
Qed.

(** [stop] behind its two gates. *)
Lemma stop_master (w : World) :
  rs_procmode w = Some "master" ->
  opt_daemon (options w) = false ->
  opt_daemon_kill (options w) = false ->
  stop w =
    mkOutcome (Ok (Some (fresh_handle w)))
      (set_timers (fresh_handle w :: timers w)
         (set_promises ((fresh_handle w, Pending) :: promises w) w))
      (EvSv "log" ["cluster"; "info"; "shutdown WORKER processes"]
         :: flat_map (directive_of (workers (cluster w)))
                     (map fst (workers (cluster w)))
         ++ [EvSetInterval (fresh_handle w) 100]).
Proof.
  intros Hm Hd Hk. unfold stop. rewrite bind_get. cbv beta.
  rewrite Hm, Hd, Hk. cbn [orb negb String.eqb Ascii.eqb Bool.eqb andb].
  assert (Hexec :
    stop_executor (fresh_handle w)
      (set_promises ((fresh_handle w, Pending) :: promises w) w) =
    mkOutcome (Ok tt)
      (set_timers (fresh_handle w :: timers w)
         (set_promises ((fresh_handle w, Pending) :: promises w) w))
      (EvSv "log" ["cluster"; "info"; "shutdown WORKER processes"]
         :: flat_map (directive_of (workers (cluster w)))
                     (map fst (workers (cluster w)))
         ++ [EvSetInterval (fresh_handle w) 100])).
  { unfold stop_executor.
    unfold sv_log at 1. rewrite bind_emit. cbv beta.
    unfold workers_keys at 1. mstep.
    erewrite bind_outcome
      by (apply graceful_loop; intros id Hid; now apply assoc_key).
    unfold set_interval. mstep. unfold emit. mstep.
    destruct w; reflexivity. }
  erewrite bind_outcome
    by (unfold new_promise; rewrite Hexec; reflexivity).
  unfold ret. rewrite prepend_mk, app_nil_r. reflexivity.
Qed.

Lemma directive_untouched (id : Z) (ws : list (Z * Worker.t)) :
  ~ In id (map fst ws) ->
  forallb (fun e => negb (touches id e)) (flat_map directive ws) = true.
Proof.
  induction ws as [|[k wk] ws IH]; cbn [map flat_map fst]; intros Hnotin;
    [reflexivity|].
  rewrite forallb_app, IH by (intros H; apply Hnotin; now right).
  rewrite andb_true_r. unfold directive; cbn [fst snd].
  assert (Hk : (k =? id) = false)
    by (apply Z.eqb_neq; intros ->; apply Hnotin; now left).
  destruct (Worker.isConnected wk); cbn; rewrite ?Hk; reflexivity.
Qed.

Lemma flat_map_directive_of (ws : list (Z * Worker.t)) :
  NoDup (map fst ws) ->
  flat_map (directive_of ws) (map fst ws) = flat_map directive ws.
Proof.
  intros Hnd.
  assert (H : forall l, incl l ws ->
            flat_map (directive_of ws) (map fst l) = flat_map directive l).
  { induction l as [|[k wk] l IH]; intros Hincl; [reflexivity|].
    cbn [map flat_map fst]. rewrite IH by (intros x Hx; apply Hincl; now right).
    unfold directive_of at 1.
    rewrite (assoc_nodup ws k wk Hnd) by (apply Hincl; now left).
    reflexivity. }
  apply H, incl_refl.
Qed.

(** C4. In the graceful phase of [stop] (procmode [master], daemon flags
    unset), for every worker of [cluster.workers] whose channel is
    connected the events of [stop] contain the shutdown directive
    immediately followed by the disconnect of that worker, and no other
    call on that worker before or after: one directive, sent before the
    channel is closed.  A worker whose channel is not connected gets no
    call at all. *)
Theorem graceful_phase_directive_then_disconnect :
  forall (w : World) (id : Z) (wk : Worker.t),
    rs_procmode w = Some "master" ->
    opt_daemon (options w) = false ->
    opt_daemon_kill (options w) = false ->
    NoDup (map fst (workers (cluster w))) ->
    In (id, wk) (workers (cluster w)) ->
    if Worker.isConnected wk then
      exists pre post : list Event,
        events (stop w) =
          (pre ++ [EvSend id "shutdown"; EvDisconnect id] ++ post)%list /\
        forallb (fun e => negb (touches id e)) pre = true /\
        forallb (fun e => negb (touches id e)) post = true
    else
      forallb (fun e => negb (touches id e)) (events (stop w)) = true.
Proof.
  intros w id wk Hm Hd Hk Hnd Hin.
  rewrite (stop_master w Hm Hd Hk). cbn [events].
  rewrite (flat_map_directive_of _ Hnd).
  destruct (in_split _ _ Hin) as (l1 & l2 & Hsplit).
  rewrite Hsplit in Hnd |- *. rewrite map_app in Hnd. cbn [map fst] in Hnd.
  assert (H1 : ~ In id (map fst l1)).
  { intros H. apply NoDup_remove_2 in Hnd. apply Hnd, in_or_app. now left. }
  assert (H2 : ~ In id (map fst l2)).
  { intros H. apply NoDup_remove_2 in Hnd. apply Hnd, in_or_app. now right. }
  rewrite flat_map_app. cbn [flat_map].
  change (directive (id, wk))
    with (if Worker.isConnected wk
          then [EvSend id "shutdown"; EvDisconnect id] else []).
  destruct (Worker.isConnected wk).
  - exists (EvSv "log" ["cluster"; "info"; "shutdown WORKER processes"]
              :: flat_map directive l1),
           (flat_map directive l2 ++ [EvSetInterval (fresh_handle w) 100])%list.
    split; [|split].
    + cbn [app]. f_equal. repeat rewrite <- app_assoc. reflexivity.
    + cbn [forallb touches negb andb]. now apply directive_untouched.
    + rewrite forallb_app, directive_untouched by assumption. reflexivity.
  - cbn [app forallb touches negb andb].
    rewrite !forallb_app, !directive_untouched by assumption. reflexivity.
Qed.

(** ** Shutdown: the drain phase *)

(** [try { worker.kill() } catch (ex) { }] returns, whether [kill] throws
    or not. *)
Lemma kill_swallowed (id : Z) (w : World) :
  try_catch (worker_kill kill_throws id) (fun _ => ret tt) w =
    mkOutcome (Ok tt) w [EvKill id].
Proof.
  unfold try_catch, worker_kill. rewrite bind_emit. cbv beta.
  rewrite bind_get. cbv beta.
  destruct (kill_throws w id); reflexivity.
Qed.

Lemma kill_loop (ids : list Z) (w : World) :
  (forall id, In id ids -> assoc id (workers (cluster w)) <> None) ->
  forEach ids (fun id =>
    o <- workers_get id ;;
    wk <- deref o ;;
    if negb (Worker.isDead wk) then
      sv_log "cluster" "trace"
        (sprintf "remaining worker #%d (pid: %d): to be killed now"
           [ANum (Worker.id wk); ANum (Worker.pid wk)]) ;;
      try_catch (worker_kill kill_throws id) (fun _ => ret tt)
    else ret tt) w =
  mkOutcome (Ok tt) w (flat_map (kill_round_of sprintf (workers (cluster w))) ids).
Proof.
  intros Hkeys. apply forEach_events. intros id Hid.
  open_calls. mstep. unfold kill_round_of, kill_round.
  destruct (assoc id (workers (cluster w))) as [wk|] eqn:Hwk;
    [|exfalso; exact (Hkeys id Hid Hwk)].
  mstep. cbn [fst snd].
  destruct (Worker.isDead wk); cbn [negb]; [reflexivity|].
  mstep. rewrite kill_swallowed. reflexivity.
Qed.

Lemma interval_cb_nonempty (p : nat) (w : World) :
  workers (cluster w) <> [] ->
  interval_cb sprintf kill_throws p w =
    mkOutcome (Ok tt) w
      (flat_map (kill_round_of sprintf (workers (cluster w)))
                (map fst (workers (cluster w)))).
Proof.
  intros Hne. unfold interval_cb. unfold workers_keys at 1. mstep.
  destruct (workers (cluster w)) as [|e ws] eqn:Hws; [contradiction|].
  cbn [map List.length]. rewrite Nat2Z.inj_succ.
  destruct (Z.eqb_spec (Z.succ (Z.of_nat (List.length (map fst ws)))) 0) as [H0|_];
    [lia|].
  rewrite <- Hws at 1.
  change (fst e :: map fst ws) with (map fst (e :: ws)).
  rewrite kill_loop; rewrite Hws; [reflexivity|].
  intros id Hid. now apply assoc_key.
Qed.

Lemma interval_cb_empty (p : nat) (w : World) :
  workers (cluster w) = [] ->
  interval_cb sprintf kill_throws p w =
    mkOutcome (Ok tt)
      (set_promises (settle p Fulfilled (promises w))
         (set_timers (filter (fun q => negb (Nat.eqb q p)) (timers w)) w))
      [EvClearTimeout p; EvResolve p].
Proof.
  intros Hws. unfold interval_cb. unfold workers_keys at 1. mstep.
  rewrite Hws. cbn [map List.length Z.of_nat Z.eqb].
  open_calls. mstep. unfold emit. rewrite prepend_mk.
  destruct w; reflexivity.
Qed.

Lemma tick_disarmed (p : nat) (w : World) :
  existsb (Nat.eqb p) (timers w) = false ->
  tick sprintf kill_throws p w = mkOutcome (Ok tt) w [].
Proof.
  intros H. unfold tick. rewrite bind_get. cbv beta. now rewrite H.
Qed.

Lemma tick_armed (p : nat) (w : World) :
  existsb (Nat.eqb p) (timers w) = true ->
  tick sprintf kill_throws p w = interval_cb sprintf kill_throws p w.
Proof.
  intros H. unfold tick. rewrite bind_get. cbv beta. now rewrite H.
Qed.

Lemma kill_round_no_resolve (p : nat) (ws : list (Z * Worker.t)) (ids : list Z) :
  filter (is_resolve p) (flat_map (kill_round_of sprintf ws) ids) = [].
Proof.
  induction ids as [|id ids IH]; [reflexivity|].
  cbn [flat_map]. rewrite filter_app, IH, app_nil_r.
  unfold kill_round_of, kill_round.
  destruct (assoc id ws) as [wk|]; [|reflexivity].
  cbn [snd]. destruct (Worker.isDead wk); reflexivity.
Qed.

Lemma settle_pending (p : nat) (s : PromiseState) (ps : list (nat * PromiseState)) :
  promise_lookup p ps = Some Pending ->
  promise_lookup p (settle p s ps) = Some s.
Proof.
  induction ps as [|[q s0] ps IH]; cbn; [discriminate|].
  destruct (Nat.eqb q p) eqn:Hq; cbn; rewrite Hq.
  - intros [= ->]. reflexivity.
  - exact IH.
Qed.

Lemma disarmed_after_clear (p : nat) (ts : list nat) :
  existsb (Nat.eqb p) (filter (fun q => negb (Nat.eqb q p)) ts) = false.
Proof.
  induction ts as [|t ts IH]; [reflexivity|].
  cbn [filter]. destruct (Nat.eqb t p) eqn:Ht; cbn [negb]; [exact IH|].
  cbn [existsb]. rewrite IH, orb_false_r.
  rewrite Nat.eqb_sym. exact Ht.
Qed.

Lemma drain_cons (p : nat) (ws : list (Z * Worker.t))
      (rest : list (list (Z * Worker.t))) (w : World) :
  drain sprintf kill_throws p (ws :: rest) w =
    bind (tick sprintf kill_throws p)
         (fun _ => drain sprintf kill_throws p rest) (set_workers ws w).
Proof.
  unfold drain. cbn [forEach]. rewrite bind_bind, bind_modify. reflexivity.
Qed.

(** Once the interval is cleared, firings of the timer change nothing. *)
Lemma drain_disarmed (p : nat) (snapshots : list (list (Z * Worker.t))) :
  forall w : World,
    existsb (Nat.eqb p) (timers w) = false ->
    let o := drain sprintf kill_throws p snapshots w in
    result o = Ok tt /\
    promises (world o) = promises w /\
    timers (world o) = timers w /\
    events o = [].
Proof.
  induction snapshots as [|ws rest IH]; intros w Hoff; [now cbn|].
  cbn zeta. rewrite drain_cons.
  erewrite bind_outcome by (apply tick_disarmed; destruct w; exact Hoff).
  rewrite prepend_nil.
  destruct (IH (set_workers ws w)) as (Hr & Hp & Ht & He);
    [destruct w; exact Hoff|].
  repeat split; assumption.
Qed.

(** While the interval is armed, the promise is fulfilled by the first
    firing that finds [cluster.workers] empty. *)
Lemma drain_armed (p : nat) (snapshots : list (list (Z * Worker.t))) :
  forall w : World,
    existsb (Nat.eqb p) (timers w) = true ->
    promise_state p w = Some Pending ->
    let o := drain sprintf kill_throws p snapshots w in
    result o = Ok tt /\
    promise_state p (world o) =
      Some (if existsb pool_empty snapshots then Fulfilled else Pending) /\
    existsb (Nat.eqb p) (timers (world o)) = negb (existsb pool_empty snapshots) /\
    List.length (filter (is_resolve p) (events o)) =
      (if existsb pool_empty snapshots then 1 else 0)%nat.
Proof.
  induction snapshots as [|ws rest IH]; intros w Hon Hpend.
  - cbn. auto.
  - cbn zeta. rewrite drain_cons. rewrite bind_outcome with
      (a := tt) (w' := world (tick sprintf kill_throws p (set_workers ws w)))
      (es := events (tick sprintf kill_throws p (set_workers ws w))).
    2:{ rewrite tick_armed by (destruct w; exact Hon).
        destruct ws as [|e ws].
        - rewrite interval_cb_empty by (destruct w; reflexivity). reflexivity.
        - rewrite interval_cb_nonempty by (destruct w; discriminate).
          reflexivity. }
    rewrite tick_armed by (destruct w; exact Hon).
    destruct ws as [|e ws].
    + rewrite interval_cb_empty by (destruct w; reflexivity).
      cbn [world events existsb pool_empty orb negb].
      match goal with
      | |- context [drain _ _ p rest ?w1] =>
          destruct (drain_disarmed p rest w1) as (Hr & Hp & Ht & He)
      end.
      { destruct w; cbn. apply disarmed_after_clear. }
      unfold prepend; cbn [result world events].
      rewrite He. unfold promise_state. rewrite Hp, Ht.
      repeat split.
      * exact Hr.
      * destruct w; cbn. apply settle_pending. exact Hpend.
      * destruct w; cbn. apply disarmed_after_clear.
      * cbn. now rewrite Nat.eqb_refl.
    + rewrite interval_cb_nonempty by (destruct w; discriminate).
      cbn [world events existsb pool_empty orb].
      destruct (IH (set_workers (e :: ws) w)) as (Hr & Hp & Ht & He);
        [destruct w; exact Hon | destruct w; exact Hpend |].
      unfold prepend; cbn [result world events].
      repeat split; try assumption.
      rewrite filter_app, kill_round_no_resolve. exact He.
Qed.

Lemma stop_master_pending (w : World) :
  let p := fresh_handle w in
  let w' := set_timers (p :: timers w) (set_promises ((p, Pending) :: promises w) w) in
  existsb (Nat.eqb p) (timers w') = true /\ promise_state p w' = Some Pending.
Proof.
  destruct w; cbn. unfold promise_state; cbn.
  now rewrite Nat.eqb_refl.
Qed.

(** C2. After [stop] (procmode [master], daemon flags unset) has returned
    its promise, let the timer fire any number of times, the environment
    having set [cluster.workers] to any content before each firing.  The
    promise is fulfilled if and only if one of the firings found
    [cluster.workers] empty: it is still pending after firings that all
    found a worker, [resolve] is called once, by the first firing that
    finds none, and that firing clears the interval.  No firing throws and
    the promise is never rejected. *)
Theorem stop_resolves_when_pool_empty :
  forall (w : World) (snapshots : list (list (Z * Worker.t))),
    rs_procmode w = Some "master" ->
    opt_daemon (options w) = false ->
    opt_daemon_kill (options w) = false ->
    let p := fresh_handle w in
    let o := stop w in
    let o' := drain sprintf kill_throws p snapshots (world o) in
    result o = Ok (Some p) /\
    promise_state p (world o) = Some Pending /\
    result o' = Ok tt /\
    promise_state p (world o') =
      Some (if existsb pool_empty snapshots then Fulfilled else Pending) /\
    existsb (Nat.eqb p) (timers (world o')) = negb (existsb pool_empty snapshots) /\
    List.length (filter (is_resolve p) (events o')) =
      (if existsb pool_empty snapshots then 1 else 0)%nat.
Proof.
  intros w snapshots Hm Hd Hk p o o'. subst o o' p.
  rewrite (stop_master w Hm Hd Hk). cbn [result world].
  destruct (stop_master_pending w) as (Hon & Hpend).
  split; [reflexivity|]. split; [exact Hpend|].
  apply drain_armed; assumption.
Qed.

Lemma assoc_some_key {A} (ws : list (Z * A)) (id : Z) (a : A) :
  assoc id ws = Some a -> In id (map fst ws).
Proof.
  induction ws as [|[k b] ws IH]; cbn; [discriminate|].
  destruct (Z.eqb_spec k id) as [->|_]; [now left|].
  intros H. right. now apply IH.
Qed.

Lemma kill_round_kills (ws : list (Z * Worker.t)) (ids : list Z) (id : Z) :
  In (EvKill id) (flat_map (kill_round_of sprintf ws) ids) <->
  In id ids /\ exists wk, assoc id ws = Some wk /\ Worker.isDead wk = false.
Proof.
  rewrite in_flat_map. unfold kill_round_of, kill_round. split.
  - intros (k & Hk & Hin).
    destruct (assoc k ws) as [wk|] eqn:Hwk; [|contradiction].
    cbn [fst snd] in Hin.
    destruct (Worker.isDead wk) eqn:Hdead; [contradiction|].
    destruct Hin as [Hin|[Hin|[]]]; [discriminate|].
    inversion Hin; subst. split; [assumption|]. now exists wk.
  - intros (Hin & wk & Hwk & Hdead). exists id. split; [assumption|].
    rewrite Hwk. cbn [fst snd]. rewrite Hdead. right. now left.
Qed.

(** C7. A firing of the drain timer that finds workers in
    [cluster.workers] returns normally whatever the calls of [worker.kill]
    do: its outcome is the one it has when no [kill] throws, so every
    worker after a failing one is still handled, nothing reaches the
    caller, and the state (the pending promise, the armed interval) is
    left as it was.  [kill] is called on exactly the workers for which
    [isDead()] is false. *)
Theorem drain_round_swallows_kill_failure :
  forall (p : nat) (w : World),
    existsb (Nat.eqb p) (timers w) = true ->
    workers (cluster w) <> [] ->
    let o := tick sprintf kill_throws p w in
    result o = Ok tt /\
    world o = w /\
    o = tick sprintf (fun _ _ => false) p w /\
    events o = flat_map (kill_round_of sprintf (workers (cluster w)))
                        (map fst (workers (cluster w))) /\
    forall id : Z,
      In (EvKill id) (events o) <->
      exists wk, assoc id (workers (cluster w)) = Some wk /\
                 Worker.isDead wk = false.
Proof.
  intros p w Hon Hne o. subst o.
  rewrite tick_armed, interval_cb_nonempty by assumption.
  cbn [result world events]. repeat split.
  - unfold tick. rewrite bind_get. cbv beta. rewrite Hon.
    unfold interval_cb. unfold workers_keys at 1. mstep.
    destruct (workers (cluster w)) as [|e ws] eqn:Hws; [contradiction|].
    cbn [map List.length]. rewrite Nat2Z.inj_succ.
    destruct (Z.eqb_spec (Z.succ (Z.of_nat (List.length (map fst ws)))) 0) as [H0|_];
      [lia|].
    symmetry. rewrite <- Hws.
    change (fst e :: map fst ws) with (map fst (e :: ws)). rewrite <- Hws.
    apply forEach_events. intros id Hid.
    open_calls. mstep. unfold kill_round_of, kill_round.
    destruct (assoc id (workers (cluster w))) as [wk|] eqn:Hwk;
      [|exfalso; exact (assoc_key _ _ Hid Hwk)].
    mstep. cbn [fst snd].
    destruct (Worker.isDead wk); cbn [negb]; [reflexivity|].
    mstep. reflexivity.
  - intros H. apply kill_round_kills in H. tauto.
  - intros (wk & Hwk & Hdead). apply kill_round_kills. split.
    + now apply assoc_some_key with wk.
    + now exists wk.
Qed.

(** ** Shutdown with an empty pool *)

(** C8, as the code has it.  With [cluster.workers] empty (procmode
    [master], daemon flags unset) every call of [stop] sends no directive,
    closes no channel and kills nobody, but it does write the [info] line
    ["shutdown WORKER processes"] and arm an interval; the first firing of
    that interval clears it and fulfils the promise.  The gates and the
    empty pool are as before afterwards, so the same holds for the next
    call. *)
Theorem stop_on_empty_pool :
  forall w : World,
    rs_procmode w = Some "master" ->
    opt_daemon (options w) = false ->
    opt_daemon_kill (options w) = false ->
    workers (cluster w) = [] ->
    let p := fresh_handle w in
    let o := stop w in
    let o' := tick sprintf kill_throws p (world o) in
    result o = Ok (Some p) /\
    events o = [EvSv "log" ["cluster"; "info"; "shutdown WORKER processes"];
                EvSetInterval p 100] /\
    result o' = Ok tt /\
    events o' = [EvClearTimeout p; EvResolve p] /\
    promise_state p (world o') = Some Fulfilled /\
    existsb (Nat.eqb p) (timers (world o')) = false /\
    rs_procmode (world o') = Some "master" /\
    options (world o') = options w /\
    workers (cluster (world o')) = [].
Proof.
  intros w Hm Hd Hk Hws p o o'. subst o o' p.
  rewrite (stop_master w Hm Hd Hk). cbn [result world events].
  destruct (stop_master_pending w) as (Hon & Hpend). cbn zeta in Hon, Hpend.
  rewrite tick_armed by exact Hon.
  rewrite interval_cb_empty by (destruct w; exact Hws).
  cbn [result world events]. rewrite Hws. cbn [map flat_map app].
  revert Hon Hpend. generalize (fresh_handle w). intros p Hon Hpend.
  repeat split.
  - unfold promise_state in *. destruct w. world_fields.
    apply settle_pending. exact Hpend.
  - destruct w. world_fields. apply disarmed_after_clear.
  - destruct w; exact Hm.
  - destruct w; exact Hws.
Qed.

(** ** The gates *)

(** C5, as the code has it.  If the [cluster] option is 0 or one of the
    two daemon flags is set, [prepare] does nothing at all: no call
    leaves the module and the state (registry, listeners, decorators) is
    the one it found.  [stop] does nothing at all whenever one of the
    daemon flags is set or the published process mode is not ["master"];
    with [cluster] at 0 and the flags unset it is the published process
    mode, which this [prepare] has not touched, that decides. *)
Theorem inert_when_gated :
  forall (fuel : nat) (w : World),
    opt_cluster (options w) = 0 \/
    opt_daemon (options w) = true \/ opt_daemon_kill (options w) = true ->
    prepare sprintf fuel w = mkOutcome (Ok tt) w [] /\
    (opt_daemon (options w) = true \/ opt_daemon_kill (options w) = true \/
     rs_procmode w <> Some "master" ->
     stop (world (prepare sprintf fuel w)) = mkOutcome (Ok None) w []).
Proof.
  clear kill_throws. intros fuel w Hgate. rewrite (prepare_gated fuel w Hgate).
  split; [reflexivity|]. cbn [world]. intros H.
  apply stop_gated. tauto.
Qed.

(** C10. In the master, with a [cluster] option below 0 and both daemon
    flags unset, [prepare] returns and activates the core: it publishes
    the cluster handle and the process mode ["master"], registers the five
    lifecycle listeners and the two decorators, and the startup loop never
    calls [cluster.fork]. *)
Theorem negative_cluster_activates_without_forks :
  forall (fuel : nat) (w : World),
    opt_cluster (options w) < 0 ->
    opt_daemon (options w) = false ->
    opt_daemon_kill (options w) = false ->
    isMaster (cluster w) = true ->
    let o := prepare sprintf fuel w in
    result o = Ok tt /\
    rs_cluster (world o) = true /\
    rs_procmode (world o) = Some "master" /\
    cluster_on (world o) = (cluster_on w ++ lifecycle_handlers)%list /\
    latches (world o) =
      (latches w ++ [("logger:msg", LoggerMsg);
                     ("title:title", TitleTitle "master")])%list /\
    forks (events o) = 0%nat.
Proof.
  intros fuel w Hneg Hd Hk Hm o. subst o.
  rewrite prepare_master by (assumption || lia).
  cbn [result world events rs_cluster rs_procmode latches cluster_on].
  repeat split.
  replace (Z.to_nat (opt_cluster (options w))) with O by lia. reflexivity.
Qed.

(** ** The worker *)

(** C6. In a worker ([cluster.worker] defined), the [message] listener
    given the string ["shutdown"] writes the log line of the receipt and
    then calls the host's shutdown service, once; given any other value
    it does nothing.  It returns normally and leaves the state alone. *)
Theorem worker_message_shutdown_only :
  forall (w : World) (wk : Worker.t) (msg : JsValue),
    worker (cluster w) = Some wk ->
    let o := on_message sprintf msg w in
    result o = Ok tt /\
    world o = w /\
    (strict_eq_string msg "shutdown" = true <-> msg = JsString "shutdown") /\
    events o =
      if strict_eq_string msg "shutdown"
      then [EvSv "log" ["cluster"; "trace";
                        sprintf "worker #%d (pid: %d): received shutdown message"
                          [ANum (Worker.id wk); ANum (Worker.pid wk)]];
            EvSv "shutdown" ["received MASTER shutdown message"]]
      else [].
Proof.
  clear kill_throws. intros w wk msg Hwk o. subst o. unfold on_message.
  assert (Hiff : strict_eq_string msg "shutdown" = true <-> msg = JsString "shutdown").
  { destruct msg; cbn; try (split; [discriminate|discriminate]).
    rewrite String.eqb_eq. split; [now intros ->|now intros [= ->]]. }
  destruct (strict_eq_string msg "shutdown").
  - rewrite bind_get. cbv beta. rewrite Hwk. open_calls. mstep.
    unfold emit. repeat split; tauto.
  - repeat split; tauto.
Qed.

(** ** The decorators *)

(** C9. In an active process ([cluster.worker] defined when it is a
    worker) the two decorators registered by [prepare] return what the
    specification's functions of (mode, worker id, text) return: the log
    line with ["[MASTER]: "] or ["[WORKER-k]: "] in front, the title with
    [" [MASTER]"] or [" [WORKER-k]"] behind.  They call nothing and leave
    the state alone. *)
Theorem decorators_are_pure_prefix_and_suffix :
  forall (w : World) (text : string),
    (isMaster (cluster w) = false -> worker (cluster w) <> None) ->
    run_latch LoggerMsg text w =
      mkOutcome
        (Ok (decorate_log (mode_of (cluster w)) (worker_id_of (cluster w)) text))
        w [] /\
    run_latch (TitleTitle (resolve_mode (cluster w))) text w =
      mkOutcome
        (Ok (decorate_title (mode_of (cluster w)) (worker_id_of (cluster w)) text))
        w [].
Proof.
  intros w text Hwk. cbn [run_latch].
  unfold logger_msg, title_title, resolve_mode, mode_of, worker_id_of, isWorker.
  rewrite bind_get. cbv beta.
  destruct (isMaster (cluster w)) eqn:Hm; cbn [negb].
  - split; mstep; reflexivity.
  - destruct (worker (cluster w)) as [wk|] eqn:Hw; [|now exfalso; apply Hwk].
    cbn [String.eqb Ascii.eqb Bool.eqb andb].
    split; unfold deref; mstep; rewrite ?Hw; mstep; reflexivity.
Qed.

End Properties.

(** ** The closures and the tables *)

Lemma exit_listener_after_prepare (sprintf : string -> list Arg -> string)
      (fuel : nat) (w : World) :
  opt_cluster (options w) <> 0 ->
  opt_daemon (options w) = false ->
  opt_daemon_kill (options w) = false ->
  isMaster (cluster w) = true ->
  (Z.to_nat (opt_cluster (options w)) <= fuel)%nat ->
  listeners "exit" (cluster_on (world (prepare sprintf fuel w))) =
    (listeners "exit" (cluster_on w) ++ [OnExit])%list.
Proof.
  intros Hc Hd Hk Hm Hfuel.
  rewrite prepare_master by assumption. cbn [world cluster_on].
  unfold listeners. rewrite filter_app, map_app. reflexivity.
Qed.

Example exit_event_in_sample_master :
  events (cluster_emit sprintf_ref
            (CeExit (Worker.mk 2 4712 false false true) (Some 1) None)
            (world (prepare sprintf_ref 3 (sample_master 3)))) =
    [EvSv "log" ["cluster"; "trace";
                 "worker #2 (pid: 4712): unexpectedly terminated due to error (exit code 1)"];
     EvSv "log" ["cluster"; "info";
                 "re-forking WORKER process after unexpected termination"];
     EvFork].
Proof. reflexivity. Qed.

Example log_line_in_master :
  result (run_latch LoggerMsg "ready" sample_running) = Ok "[MASTER]: ready".
Proof. reflexivity. Qed.

Example log_line_in_worker :
  result (run_latch LoggerMsg "ready" (sample_worker 3)) = Ok "[WORKER-3]: ready".
Proof. reflexivity. Qed.

Example title_in_worker :
  result (run_latch (TitleTitle "worker") "app" (sample_worker 3)) =
    Ok "app [WORKER-3]".
Proof. reflexivity. Qed.

(** ** The theorems at sample processes *)

Lemma startup_forks_exactly_N_witness :
  0 < opt_cluster (options (sample_master 3)) /\
  Z.of_nat (forks (events (prepare sprintf_ref 3 (sample_master 3)))) = 3.
Proof.
  split; [reflexivity|].
  destruct (startup_forks_exactly_N sprintf_ref 3%nat (sample_master 3))
    as (_ & H); [reflexivity|reflexivity|reflexivity|reflexivity|cbn; lia|].
  exact H.
Defined.

Lemma stop_resolves_when_pool_empty_witness :
  rs_procmode sample_running = Some "master" /\
  promise_state 1 (world (drain sprintf_ref kill_throws_on_2 1
                            [sample_pool; sample_pool; []; sample_pool]
                            (world (stop sample_running)))) = Some Fulfilled /\
  promise_state 1 (world (drain sprintf_ref kill_throws_on_2 1
                            [sample_pool; sample_pool]
                            (world (stop sample_running)))) = Some Pending.
Proof.
  split; [reflexivity|]. split.
  - destruct (stop_resolves_when_pool_empty sprintf_ref kill_throws_on_2
                sample_running [sample_pool; sample_pool; []; sample_pool])
      as (_ & _ & _ & H & _); [reflexivity|reflexivity|reflexivity|].
    exact H.
  - destruct (stop_resolves_when_pool_empty sprintf_ref kill_throws_on_2
                sample_running [sample_pool; sample_pool])
      as (_ & _ & _ & H & _); [reflexivity|reflexivity|reflexivity|].
    exact H.
Defined.

Lemma sample_pool_keys : NoDup (map fst sample_pool).
Proof.
  repeat constructor; cbn; intuition discriminate.
Defined.

Lemma graceful_phase_directive_then_disconnect_witness :
  In (1, Worker.mk 1 4711 false true false) (workers (cluster sample_running)) /\
  exists pre post : list Event,
    events (stop sample_running) =
      (pre ++ [EvSend 1 "shutdown"; EvDisconnect 1] ++ post)%list /\
    forallb (fun e => negb (touches 1 e)) pre = true /\
    forallb (fun e => negb (touches 1 e)) post = true.
Proof.
  split; [now left|].
  apply (graceful_phase_directive_then_disconnect sample_running 1
           (Worker.mk 1 4711 false true false));
    [reflexivity|reflexivity|reflexivity|exact sample_pool_keys|now left].
Defined.

Lemma inert_when_gated_witness :
  opt_cluster (options (sample_master 0)) = 0 /\
  prepare sprintf_ref 0 (sample_master 0) =
    mkOutcome (Ok tt) (sample_master 0) [] /\
  stop (world (prepare sprintf_ref 0 (sample_master 0))) =
    mkOutcome (Ok None) (sample_master 0) [].
Proof.
  split; [reflexivity|].
  destruct (inert_when_gated sprintf_ref 0%nat (sample_master 0)) as (H1 & H2);
    [now left|].
  split; [exact H1|]. apply H2. right. right. discriminate.
Defined.

Lemma worker_message_shutdown_only_witness :
  worker (cluster (sample_worker 3)) = Some (Worker.mk 3 4713 false true false) /\
  events (on_message sprintf_ref (JsString "shutdown") (sample_worker 3)) =
    [EvSv "log" ["cluster"; "trace";
                 "worker #3 (pid: 4713): received shutdown message"];
     EvSv "shutdown" ["received MASTER shutdown message"]].
Proof.
  split; [reflexivity|].
  destruct (worker_message_shutdown_only sprintf_ref (sample_worker 3)
              (Worker.mk 3 4713 false true false) (JsString "shutdown"))
    as (_ & _ & _ & H); [reflexivity|].
  exact H.
Defined.

Lemma drain_round_swallows_kill_failure_witness :
  kill_throws_on_2 (set_timers [1%nat] sample_running) 2 = true /\
  result (tick sprintf_ref kill_throws_on_2 1 (set_timers [1%nat] sample_running)) =
    Ok tt /\
  events (tick sprintf_ref kill_throws_on_2 1 (set_timers [1%nat] sample_running)) =
    [EvSv "log" ["cluster"; "trace";
                 "remaining worker #1 (pid: 4711): to be killed now"];
     EvKill 1;
     EvSv "log" ["cluster"; "trace";
                 "remaining worker #2 (pid: 4712): to be killed now"];
     EvKill 2].
Proof.
  split; [reflexivity|].
  destruct (drain_round_swallows_kill_failure sprintf_ref kill_throws_on_2 1
              (set_timers [1%nat] sample_running))
    as (Hr & _ & _ & He & _); [reflexivity|discriminate|].
  split; [exact Hr|exact He].
Defined.

Lemma stop_on_empty_pool_witness :
  workers (cluster sample_drained) = [] /\
  events (stop sample_drained) =
    [EvSv "log" ["cluster"; "info"; "shutdown WORKER processes"];
     EvSetInterval 1 100] /\
  promise_state 1 (world (tick sprintf_ref kill_throws_on_2 1
                            (world (stop sample_drained)))) = Some Fulfilled.
Proof.
  split; [reflexivity|].
  destruct (stop_on_empty_pool sprintf_ref kill_throws_on_2 sample_drained)
    as (_ & He & _ & _ & Hp & _); [reflexivity|reflexivity|reflexivity|reflexivity|].
  split; [exact He|exact Hp].
Defined.

Lemma decorators_are_pure_prefix_and_suffix_witness :
  worker (cluster (sample_worker 3)) <> None /\
  run_latch LoggerMsg "ready" (sample_worker 3) =
    mkOutcome (Ok "[WORKER-3]: ready") (sample_worker 3) [] /\
  run_latch (TitleTitle "worker") "app" (sample_worker 3) =
    mkOutcome (Ok "app [WORKER-3]") (sample_worker 3) [].
Proof.
  split; [discriminate|]. split.
  - destruct (decorators_are_pure_prefix_and_suffix (sample_worker 3) "ready")
      as (H & _); [intros _; discriminate|].
    exact H.
  - destruct (decorators_are_pure_prefix_and_suffix (sample_worker 3) "app")
      as (_ & H); [intros _; discriminate|].
    exact H.
Defined.

Lemma negative_cluster_activates_without_forks_witness :
  opt_cluster (options (sample_master (-1))) < 0 /\
  isMaster (cluster (sample_master (-1))) = true /\
  cluster_on (world (prepare sprintf_ref 0 (sample_master (-1)))) =
    lifecycle_handlers /\
  forks (events (prepare sprintf_ref 0 (sample_master (-1)))) = 0%nat.
Proof.
  split; [reflexivity|]. split; [reflexivity|].
  destruct (negative_cluster_activates_without_forks sprintf_ref 0%nat
              (sample_master (-1)))
    as (_ & _ & _ & Hc & _ & Hf);
    [reflexivity|reflexivity|reflexivity|reflexivity|].
  split; [exact Hc|exact Hf].
Defined.

(** ** Where the code departs from the specification *)

(** C5 as stated fails here.  With [cluster] at 0 and both daemon flags
    unset, [stop] is not gated by the option: in a registry where the process mode ["master"] is
    published, the inert [prepare] is followed by a [stop] that logs the
    shutdown, arms the drain interval and returns a promise. *)
Lemma inert_stop_counterexample :
  opt_cluster (options sample_foreign_master) = 0 /\
  prepare sprintf_ref 0 sample_foreign_master =
    mkOutcome (Ok tt) sample_foreign_master [] /\
  result (stop (world (prepare sprintf_ref 0 sample_foreign_master))) =
    Ok (Some 1%nat) /\
  events (stop (world (prepare sprintf_ref 0 sample_foreign_master))) =
    [EvSv "log" ["cluster"; "info"; "shutdown WORKER processes"];
     EvSetInterval 1 100] /\
  stop (world (prepare sprintf_ref 0 sample_foreign_master)) <>
    mkOutcome (Ok None) sample_foreign_master [].
Proof.
  repeat split; try reflexivity. discriminate.
Qed.

(** C8 as stated fails here.  After a shutdown that has completed on an
    empty pool, a second call of [stop] is not free of effects: it writes the [info] line again and
    arms a new interval. *)
Lemma stop_again_counterexample :
  let w1 := world (tick sprintf_ref kill_throws_on_2 1
                     (world (stop sample_drained))) in
  workers (cluster w1) = [] /\
  promise_state 1 w1 = Some Fulfilled /\
  events (stop w1) =
    [EvSv "log" ["cluster"; "info"; "shutdown WORKER processes"];
     EvSetInterval 2 100] /\
  events (stop w1) <> [] /\
  timers (world (stop w1)) = [2%nat].
Proof.
  repeat split; try reflexivity. discriminate.
Qed.


(** * More of the module *)

Ltac open_calls :=
  unfold sv_log, sv_shutdown, cluster_fork, worker_send, worker_disconnect,
         rs_put_cluster, rs_put_procmode, workers_keys, workers_get,
         set_interval, clear_timeout, resolve, deref.

Ltac mstep :=
  repeat (first
    [ rewrite bind_bind
    | rewrite bind_get
    | rewrite bind_ret
    | rewrite bind_modify
    | rewrite bind_emit
    | rewrite bind_throw
    | rewrite prepend_prepend
    | rewrite prepend_mk ];
    cbv beta).

Ltac world_fields :=
  cbv [set_rs_cluster set_rs_procmode add_cluster_on add_process_on add_latch
       set_timers set_promises set_workers
       options rs_cluster rs_procmode cluster cluster_on process_on latches
       timers promises isMaster workers worker].

Section Lifecycle.

Variable sprintf : string -> list Arg -> string.
Variable kill_throws : World -> Z -> bool.

(** ** The lifecycle listeners *)

Lemma on_exit_outcome (wk : Worker.t) (code : option Z) (signal : option string) :
  exists m : string, forall w : World,
    on_exit sprintf wk code signal w =
      mkOutcome (Ok tt) w
        (EvSv "log" ["cluster"; "trace"; m]
           :: if Worker.suicide wk then []
              else [EvSv "log" ["cluster"; "info";
                                sprintf "re-forking WORKER process after unexpected termination" []];
                    EvFork]).
Proof.
  clear kill_throws.
  unfold on_exit.
  destruct (Worker.suicide wk), (truthy signal), (code_nonzero code);
    cbn [negb]; eexists; intros w; open_calls; mstep; unfold emit, ret;
    rewrite ?prepend_mk; reflexivity.
Qed.

(** One listener, one event. *)
Lemma handler_outcome (e : ClusterEvent) (h : ClusterHandler) :
  In (event_name e, h) lifecycle_handlers ->
  exists m : string, forall w : World,
    run_cluster_handler sprintf h e w =
      mkOutcome (Ok tt) w
        (EvSv "log" ["cluster"; event_severity e; m]
           :: if crashed e then
                [EvSv "log" ["cluster"; "info";
                             sprintf "re-forking WORKER process after unexpected termination" []];
                 EvFork]
              else []).
Proof.
  clear kill_throws.
  unfold lifecycle_handlers. intros Hin.
  destruct e as [wk|wk|wk addr|wk|wk code signal]; cbn in Hin;
    repeat (destruct Hin as [Hin|Hin]; [inversion Hin; subst; clear Hin|]);
    try contradiction; cbn [run_cluster_handler ce_worker crashed event_severity].
  - eexists; intros w. unfold on_fork. reflexivity.
  - eexists; intros w. unfold on_online. reflexivity.
  - eexists; intros w. unfold on_listening, deref. rewrite bind_ret. reflexivity.
  - eexists; intros w. unfold on_disconnect. reflexivity.
  - destruct (on_exit_outcome wk code signal) as (m & Hm).
    exists m. intros w. rewrite Hm. destruct (Worker.suicide wk); reflexivity.
Qed.

Lemma forks_app (es es' : list Event) :
  forks (es ++ es') = (forks es + forks es')%nat.
Proof.
  unfold forks. now rewrite filter_app, length_app.
Qed.

Lemma the_listener_of (e : ClusterEvent) :
  exists h : ClusterHandler,
    listeners (event_name e) lifecycle_handlers = [h] /\
    In (event_name e, h) lifecycle_handlers.
Proof.
  clear kill_throws.
  destruct e; cbn; eexists; (split; [reflexivity|]); cbn; tauto.
Qed.

Lemma cluster_emit_outcome (e : ClusterEvent) :
  exists m : string, forall w : World,
    cluster_on w = lifecycle_handlers ->
    cluster_emit sprintf e w =
      mkOutcome (Ok tt) w
        (EvSv "log" ["cluster"; event_severity e; m]
           :: if crashed e then
                [EvSv "log" ["cluster"; "info";
                             sprintf "re-forking WORKER process after unexpected termination" []];
                 EvFork]
              else []).
Proof.
  clear kill_throws.
  destruct (the_listener_of e) as (h & Hl & Hin).
  destruct (handler_outcome e h Hin) as (m & Hm).
  exists m. intros w Hon.
  unfold cluster_emit. rewrite bind_get. cbv beta. rewrite Hon, Hl.
  cbn [forEach]. erewrite bind_outcome by apply Hm.
  unfold ret. rewrite prepend_mk, app_nil_r. reflexivity.
Qed.

(** X1. In a master that has run [prepare] once (the five listeners are
    the listeners of [cluster]), each lifecycle event makes exactly one
    listener run: it writes one log line, at severity [debug] for [fork]
    and [trace] for the four others, and only the exit of a worker that
    was not marked is followed by the [info] line and then the fork.  The
    state is not touched. *)
Theorem lifecycle_event_logged_once :
  forall (e : ClusterEvent) (w : World),
    cluster_on w = lifecycle_handlers ->
    let o := cluster_emit sprintf e w in
    result o = Ok tt /\
    world o = w /\
    exists m : string,
      events o =
        EvSv "log" ["cluster"; event_severity e; m]
          :: if crashed e then
               [EvSv "log" ["cluster"; "info";
                            sprintf "re-forking WORKER process after unexpected termination" []];
                EvFork]
             else [].
Proof.
  intros e w Hon o. subst o.
  destruct (cluster_emit_outcome e) as (m & Hm).
  rewrite (Hm w Hon). cbn [result world events].
  split; [reflexivity|]. split; [reflexivity|]. now exists m.
Qed.

(** X2. The respawn policy keeps no count: over any sequence of lifecycle
    events the master calls [cluster.fork] once for every exit of a worker
    that was not marked, never more and never less, and writes as many
    [info] lines. *)
Theorem respawn_once_per_crash :
  forall (es : list ClusterEvent) (w : World),
    cluster_on w = lifecycle_handlers ->
    let o := cluster_emit_all sprintf es w in
    result o = Ok tt /\
    world o = w /\
    forks (events o) = List.length (filter crashed es) /\
    List.length (filter (is_log_at "info") (events o)) =
      List.length (filter crashed es).
Proof.
  intros es w Hon o. subst o. unfold cluster_emit_all.
  rewrite forEach_events with (g := fun e => events (cluster_emit sprintf e w)).
  2:{ intros e _. destruct (cluster_emit_outcome e) as (m & Hm).
      rewrite (Hm w Hon). reflexivity. }
  cbn [result world events]. split; [reflexivity|]. split; [reflexivity|].
  induction es as [|e es [IHf IHl]]; [split; reflexivity|].
  cbn [flat_map filter]. rewrite forks_app, filter_app, length_app, IHf, IHl.
  destruct (cluster_emit_outcome e) as (m & Hm). rewrite (Hm w Hon).
  cbn [events]. destruct e as [wk|wk|wk addr|wk|wk code signal];
    cbn [crashed event_severity]; try (split; reflexivity).
  destruct (Worker.suicide wk); cbn [negb]; split; reflexivity.
Qed.

(** X3. [prepare] does not look at what is registered already: run twice
    in the master it leaves every lifecycle listener twice in the table,
    and the exit of one worker that was not marked then forks two
    workers. *)
Theorem prepare_twice_forks_twice :
  forall (fuel : nat) (w : World) (wk : Worker.t) (code : option Z)
         (signal : option string),
    opt_cluster (options w) <> 0 ->
    opt_daemon (options w) = false ->
    opt_daemon_kill (options w) = false ->
    isMaster (cluster w) = true ->
    (Z.to_nat (opt_cluster (options w)) <= fuel)%nat ->
    cluster_on w = [] ->
    let w2 := world (prepare sprintf fuel (world (prepare sprintf fuel w))) in
    cluster_on w2 = (lifecycle_handlers ++ lifecycle_handlers)%list /\
    forks (events (cluster_emit sprintf (CeExit wk code signal) w2)) =
      (if Worker.suicide wk then 0 else 2)%nat.
Proof.
  intros fuel w wk code signal Hc Hd Hk Hm Hfuel Hon w2. subst w2.
  rewrite (prepare_master sprintf fuel w) by assumption. cbn [world].
  rewrite prepare_master by assumption. cbn [world cluster_on]. rewrite Hon.
  split; [reflexivity|].
  unfold cluster_emit. rewrite bind_get. cbv beta. cbn [cluster_on app].
  destruct (on_exit_outcome wk code signal) as (m & Hexit).
  cbn [event_name lifecycle_handlers listeners]. cbn.
  erewrite bind_outcome by apply Hexit.
  erewrite bind_outcome by apply Hexit.
  unfold ret. rewrite !prepend_mk. cbn [events].
  destruct (Worker.suicide wk); reflexivity.
Qed.

(** ** What [stop] and the drain timer leave alone *)

Lemma stop_cases (w : World) :
  stop w = mkOutcome (Ok None) w [] \/
  (rs_procmode w = Some "master" /\
   opt_daemon (options w) = false /\ opt_daemon_kill (options w) = false).
Proof.
  clear sprintf kill_throws.
  destruct (rs_procmode w) as [m|] eqn:Hm.
  - destruct (String.eqb_spec m "master") as [->|Hne].
    + destruct (opt_daemon (options w)) eqn:Hd;
        [left; apply stop_gated; rewrite Hd; tauto|].
      destruct (opt_daemon_kill (options w)) eqn:Hk;
        [left; apply stop_gated; rewrite Hk; tauto|].
      right. tauto.
    + left. apply stop_gated. left. rewrite Hm. congruence.
  - left. apply stop_gated. left. rewrite Hm. discriminate.
Qed.

Lemma same_host_state_refl (w : World) : same_host_state w w.
Proof. clear sprintf kill_throws. unfold same_host_state. tauto. Qed.

Lemma same_host_state_trans (w1 w2 w3 : World) :
  same_host_state w1 w2 -> same_host_state w2 w3 -> same_host_state w1 w3.
Proof.
  clear sprintf kill_throws.
  unfold same_host_state.
  intros (a1 & a2 & a3 & a4 & a5 & a6 & a7) (b1 & b2 & b3 & b4 & b5 & b6 & b7).
  repeat split; congruence.
Qed.

Lemma directive_of_calls (ws : list (Z * Worker.t)) (ids : list Z) (e : Event) :
  In e (flat_map (directive_of ws) ids) ->
  exists id, e = EvSend id "shutdown" \/ e = EvDisconnect id.
Proof.
  clear sprintf kill_throws.
  rewrite in_flat_map. intros (id & _ & Hin).
  unfold directive_of, directive in Hin.
  destruct (assoc id ws) as [wk|]; [|contradiction]. cbn [fst snd] in Hin.
  destruct (Worker.isConnected wk); [|contradiction].
  exists id. destruct Hin as [<-|[<-|[]]]; tauto.
Qed.

Lemma kill_round_of_calls (ws : list (Z * Worker.t)) (ids : list Z) (e : Event) :
  In e (flat_map (kill_round_of sprintf ws) ids) ->
  (exists m, e = EvSv "log" ["cluster"; "trace"; m]) \/ exists id, e = EvKill id.
Proof.
  clear kill_throws.
  rewrite in_flat_map. intros (id & _ & Hin).
  unfold kill_round_of, kill_round in Hin.
  destruct (assoc id ws) as [wk|]; [|contradiction]. cbn [fst snd] in Hin.
  destruct (Worker.isDead wk); [contradiction|].
  destruct Hin as [<-|[<-|[]]]; [left; eexists; reflexivity|right; now exists id].
Qed.


(** A firing of the timer, in any state. *)
Lemma tick_outcome (p : nat) (w : World) :
  exists (w' : World) (es : list Event),
    tick sprintf kill_throws p w = mkOutcome (Ok tt) w' es /\
    same_host_state w w' /\
    forallb (fun e => negb (fork_send_or_disconnect e)) es = true.
Proof.
  destruct (existsb (Nat.eqb p) (timers w)) eqn:Hon.
  - rewrite (tick_armed sprintf kill_throws p w Hon).
    destruct (workers (cluster w)) as [|e ws] eqn:Hws.
    + rewrite interval_cb_empty by exact Hws.
      do 2 eexists. split; [reflexivity|]. split; [|reflexivity].
      destruct w. unfold same_host_state. world_fields. tauto.
    + rewrite interval_cb_nonempty by (rewrite Hws; discriminate).
      do 2 eexists. split; [reflexivity|].
      split; [apply same_host_state_refl|].
      apply forallb_forall. intros ev Hev.
      destruct (kill_round_of_calls _ _ _ Hev) as [(m & ->)|(id & ->)];
        reflexivity.
  - rewrite (tick_disarmed sprintf kill_throws p w Hon).
    do 2 eexists. split; [reflexivity|].
    split; [apply same_host_state_refl|reflexivity].
Qed.


Lemma set_workers_listeners (ws : list (Z * Worker.t)) (w : World) :
  cluster_on (set_workers ws w) = cluster_on w.
Proof. destruct w; reflexivity. Qed.

Lemma drain_listeners (p : nat) (snapshots : list (list (Z * Worker.t))) :
  forall w : World,
    result (drain sprintf kill_throws p snapshots w) = Ok tt /\
    cluster_on (world (drain sprintf kill_throws p snapshots w)) = cluster_on w.
Proof.
  induction snapshots as [|ws rest IH]; intros w; [split; reflexivity|].
  rewrite drain_cons.
  destruct (tick_outcome p (set_workers ws w)) as (w' & es & Ht & Hs & _).
  erewrite bind_outcome by exact Ht.
  unfold prepend; cbn [result world].
  destruct (IH w') as (Hr & Hc). split; [exact Hr|].
  rewrite Hc. destruct Hs as (_ & _ & _ & _ & -> & _).
  apply set_workers_listeners.
Qed.

(** X6. Shutdown does not suspend the respawn policy: [stop] and the
    drain timer leave the exit listener registered, so after [stop] and
    any number of firings the exit of a worker that was not marked is
    still answered by one fork. *)
Theorem crash_during_drain_still_forks :
  forall (w : World) (snapshots : list (list (Z * Worker.t))) (wk : Worker.t)
         (code : option Z) (signal : option string),
    cluster_on w = lifecycle_handlers ->
    let w' := world (drain sprintf kill_throws (fresh_handle w) snapshots
                       (world (stop w))) in
    cluster_on w' = lifecycle_handlers /\
    forks (events (cluster_emit sprintf (CeExit wk code signal) w')) =
      (if Worker.suicide wk then 0 else 1)%nat.
Proof.
  intros w snapshots wk code signal Hon w'. subst w'.
  destruct (drain_listeners (fresh_handle w) snapshots (world (stop w)))
    as (_ & Hd).
  assert (Hs : cluster_on (world (stop w)) = cluster_on w).
  { destruct (stop_cases w) as [Hg|(Hm & Hdm & Hk)].
    - now rewrite Hg.
    - rewrite (stop_master w Hm Hdm Hk). destruct w; reflexivity. }
  rewrite Hs, Hon in Hd. split; [exact Hd|].
  destruct (cluster_emit_outcome (CeExit wk code signal)) as (m & Hm).
  rewrite (Hm _ Hd). cbn [events crashed].
  destruct (Worker.suicide wk); reflexivity.
Qed.

(** ** Master and worker together *)

Lemma stop_sends_shutdown (w : World) (id : Z) (msg : string) :
  In (EvSend id msg) (events (stop w)) -> msg = "shutdown".
Proof.
  clear sprintf kill_throws.
  destruct (stop_cases w) as [Hg|(Hm & Hd & Hk)].
  - rewrite Hg. intros [].
  - rewrite (stop_master w Hm Hd Hk). cbn [events].
    intros [H|H]; [discriminate|].
    apply in_app_or in H. destruct H as [H|[H|[]]]; [|discriminate].
    destruct (directive_of_calls _ _ _ H) as (id' & [He|He]);
      [now inversion He|discriminate].
Qed.

(** X7. Master and worker agree on the directive: whatever message [stop]
    sends to a worker, the [message] listener of a worker process that
    receives it as a string writes its receipt line and calls the host's
    shutdown service exactly once. *)
Theorem directive_sent_is_directive_understood :
  forall (wm : World) (id : Z) (msg : string) (ww : World),
    In (EvSend id msg) (events (stop wm)) ->
    process_on ww = [("message", OnMessage)] ->
    worker (cluster ww) <> None ->
    let o := process_emit_message sprintf (JsString msg) ww in
    result o = Ok tt /\
    world o = ww /\
    List.length (filter is_shutdown_call (events o)) = 1%nat /\
    List.length (events o) = 2%nat.
Proof.
  clear kill_throws.
  intros wm id msg ww Hsent Hon Hwk o. subst o.
  rewrite (stop_sends_shutdown wm id msg Hsent).
  unfold process_emit_message. rewrite bind_get. cbv beta. rewrite Hon.
  cbn [listeners filter fst snd map String.eqb Ascii.eqb Bool.eqb andb forEach].
  unfold on_message. cbn [strict_eq_string String.eqb Ascii.eqb Bool.eqb andb].
  destruct (worker (cluster ww)) as [wk|] eqn:Hw; [|contradiction].
  mstep. rewrite Hw. open_calls. mstep. unfold emit, ret. rewrite !prepend_mk.
  cbn. tauto.
Qed.

(** ** [prepare] and [stop] in a row *)

Lemma prepare_worker_cases (fuel : nat) (w : World) :
  isMaster (cluster w) = false ->
  prepare sprintf fuel w = mkOutcome (Ok tt) w [] \/
  (opt_cluster (options w) <> 0 /\
   opt_daemon (options w) = false /\ opt_daemon_kill (options w) = false).
Proof.
  clear kill_throws.
  intros Hm.
  destruct (Z.eq_dec (opt_cluster (options w)) 0) as [Hc|Hc];
    [left; apply prepare_gated; tauto|].
  destruct (opt_daemon (options w)) eqn:Hd;
    [left; apply prepare_gated; tauto|].
  destruct (opt_daemon_kill (options w)) eqn:Hk;
    [left; apply prepare_gated; tauto|].
  right. tauto.
Qed.

(** X8. A worker process never forks and never logs in [prepare],
    whatever its options: only the master runs the startup loop.  It
    registers no lifecycle listener and arms nothing. *)
Theorem worker_prepare_is_silent :
  forall (fuel : nat) (w : World),
    isMaster (cluster w) = false ->
    let o := prepare sprintf fuel w in
    result o = Ok tt /\
    events o = [] /\
    cluster_on (world o) = cluster_on w /\
    timers (world o) = timers w /\
    promises (world o) = promises w.
Proof.
  clear kill_throws.
  intros fuel w Hm o. subst o.
  destruct (prepare_worker_cases fuel w Hm) as [Hg|(Hc & Hd & Hk)].
  - rewrite Hg. cbn. tauto.
  - rewrite prepare_worker by assumption. cbn. tauto.
Qed.

(** X9. The process mode [prepare] publishes decides [stop], not the one
    it found: behind the gates of [prepare], a [stop] that follows it
    returns a promise in the master and does nothing at all in a worker,
    whatever was published as process mode before. *)
Theorem stop_after_prepare :
  forall (fuel : nat) (w : World),
    opt_cluster (options w) <> 0 ->
    opt_daemon (options w) = false ->
    opt_daemon_kill (options w) = false ->
    (Z.to_nat (opt_cluster (options w)) <= fuel)%nat ->
    let w' := world (prepare sprintf fuel w) in
    result (prepare sprintf fuel w) = Ok tt /\
    if isMaster (cluster w)
    then result (stop w') = Ok (Some (fresh_handle w')) /\
         existsb (Nat.eqb (fresh_handle w')) (timers (world (stop w'))) = true
    else stop w' = mkOutcome (Ok None) w' [].
Proof.
  intros fuel w Hc Hd Hk Hfuel w'. subst w'.
  destruct (isMaster (cluster w)) eqn:Hm.
  - rewrite prepare_master by assumption. cbn [result world].
    split; [reflexivity|].
    rewrite stop_master by (cbn; assumption || reflexivity).
    cbn [result world]. split; [reflexivity|].
    match goal with
    | |- context [fresh_handle ?x] =>
        exact (proj1 (stop_master_pending x))
    end.
  - rewrite prepare_worker by assumption. cbn [result world].
    split; [reflexivity|].
    apply stop_gated. left. cbn. discriminate.
Qed.

(** X10. The option is off by default: [latch] keeps the options declared
    before it and adds one, and at the default it declares [prepare] does
    nothing at all, whatever the flags, the role of the process and the
    rest of the state. *)
Theorem default_option_is_inert :
  forall (declared : list OptionDecl) (fuel : nat) (w : World),
    opt_cluster (options w) = decl_default cluster_option ->
    firstn (List.length declared) (latch_options declared) = declared /\
    skipn (List.length declared) (latch_options declared) = [cluster_option] /\
    prepare sprintf fuel w = mkOutcome (Ok tt) w [].
Proof.
  intros declared fuel w Hdef. unfold latch_options.
  rewrite firstn_app, Nat.sub_diag, firstn_all, skipn_app, Nat.sub_diag, skipn_all.
  cbn [firstn skipn app]. rewrite app_nil_r.
  repeat split. apply prepare_gated. left. exact Hdef.
Qed.

(** ** [stop] called again, and the drain that never gives up *)

Lemma fold_max_bound (p : nat) (l : list nat) :
  In p l -> (p <= fold_right Nat.max O l)%nat.
Proof.
  clear sprintf kill_throws.
  induction l as [|q l IH]; cbn [fold_right In]; [tauto|].
  intros [->|H]; [lia|]. specialize (IH H). lia.
Qed.

Lemma armed_below_fresh (p : nat) (w : World) :
  In p (timers w) -> (p < fresh_handle w)%nat.
Proof.
  clear sprintf kill_throws.
  intros H. unfold fresh_handle. apply fold_max_bound in H. lia.
Qed.

(** X11. [stop] keeps no memory of an earlier call.  Called again while
    the first drain is running, on whatever [cluster.workers] holds by
    then, it logs again, sends the directive to and disconnects every
    worker that is connected at that time, and arms a second interval with
    a promise of its own; the first interval stays armed and the first
    promise pending. *)
Theorem stop_again_starts_over :
  forall (w : World) (ws : list (Z * Worker.t)),
    rs_procmode w = Some "master" ->
    opt_daemon (options w) = false ->
    opt_daemon_kill (options w) = false ->
    let p1 := fresh_handle w in
    let w1 := set_workers ws (world (stop w)) in
    let p2 := fresh_handle w1 in
    let o2 := stop w1 in
    p1 <> p2 /\
    result o2 = Ok (Some p2) /\
    events o2 =
      EvSv "log" ["cluster"; "info"; "shutdown WORKER processes"]
        :: (flat_map (directive_of ws) (map fst ws) ++ [EvSetInterval p2 100])%list /\
    existsb (Nat.eqb p1) (timers (world o2)) = true /\
    existsb (Nat.eqb p2) (timers (world o2)) = true /\
    promise_state p1 (world o2) = Some Pending /\
    promise_state p2 (world o2) = Some Pending.
Proof.
  clear sprintf kill_throws.
  intros w ws Hm Hd Hk p1 w1 p2 o2. subst o2 p2 w1 p1.
  rewrite (stop_master w Hm Hd Hk). cbn [world].
  set (p1 := fresh_handle w).
  set (w1 := set_workers ws
               (set_timers (p1 :: timers w)
                  (set_promises ((p1, Pending) :: promises w) w))).
  assert (Hlt : (p1 < fresh_handle w1)%nat).
  { apply armed_below_fresh. subst w1. destruct w. world_fields. now left. }
  assert (Hm1 : rs_procmode w1 = Some "master") by (subst w1; destruct w; exact Hm).
  assert (Hd1 : opt_daemon (options w1) = false) by (subst w1; destruct w; exact Hd).
  assert (Hk1 : opt_daemon_kill (options w1) = false)
    by (subst w1; destruct w; exact Hk).
  rewrite (stop_master w1 Hm1 Hd1 Hk1). cbn [result world events].
  assert (Hws : workers (cluster w1) = ws) by (subst w1; destruct w; reflexivity).
  assert (Ht : timers w1 = p1 :: timers w) by (subst w1; destruct w; reflexivity).
  assert (Hp : promises w1 = (p1, Pending) :: promises w)
    by (subst w1; destruct w; reflexivity).
  rewrite Hws. generalize dependent (fresh_handle w1). intros p2 Hlt.
  split; [lia|]. split; [reflexivity|]. split; [reflexivity|].
  assert (Hne : Nat.eqb p2 p1 = false) by (apply Nat.eqb_neq; lia).
  assert (Hne' : Nat.eqb p1 p2 = false) by (apply Nat.eqb_neq; lia).
  unfold promise_state.
  replace (timers (set_timers (p2 :: timers w1)
                     (set_promises ((p2, Pending) :: promises w1) w1)))
    with (p2 :: p1 :: timers w) by (rewrite <- Ht; destruct w1; reflexivity).
  replace (promises (set_timers (p2 :: timers w1)
                       (set_promises ((p2, Pending) :: promises w1) w1)))
    with ((p2, Pending) :: (p1, Pending) :: promises w)
    by (rewrite <- Hp; destruct w1; reflexivity).
  cbn [existsb promise_lookup]. rewrite Hne, Hne', !Nat.eqb_refl.
  cbn. tauto.
Qed.

Lemma assoc_absent {A} (ws : list (Z * A)) (id : Z) :
  ~ In id (map fst ws) -> assoc id ws = None.
Proof.
  induction ws as [|[k a] ws IH]; cbn; [reflexivity|].
  intros H. destruct (Z.eqb_spec k id) as [->|_]; [exfalso; apply H; now left|].
  apply IH. intros Hin. apply H. now right.
Qed.

Lemma flat_map_kill_round_of (ws : list (Z * Worker.t)) :
  NoDup (map fst ws) ->
  flat_map (kill_round_of sprintf ws) (map fst ws) = flat_map (kill_round sprintf) ws.
Proof.
  intros Hnd.
  assert (H : forall l, incl l ws ->
            flat_map (kill_round_of sprintf ws) (map fst l) =
            flat_map (kill_round sprintf) l).
  { induction l as [|[k wk] l IH]; intros Hincl; [reflexivity|].
    cbn [map flat_map fst]. rewrite IH by (intros x Hx; apply Hincl; now right).
    unfold kill_round_of at 1.
    rewrite (assoc_nodup ws k wk Hnd) by (apply Hincl; now left).
    reflexivity. }
  apply H, incl_refl.
Qed.

Lemma kills_of_absent (id : Z) (ws : list (Z * Worker.t)) :
  ~ In id (map fst ws) ->
  filter (is_kill id) (flat_map (kill_round sprintf) ws) = [].
Proof.
  induction ws as [|[k wk] ws IH]; cbn [map flat_map fst]; intros Hnotin;
    [reflexivity|].
  rewrite filter_app, IH by (intros H; apply Hnotin; now right).
  rewrite app_nil_r.
  unfold kill_round; cbn [fst snd].
  destruct (Worker.isDead wk); [reflexivity|].
  cbn [filter is_kill].
  destruct (Z.eqb_spec k id) as [->|_]; [exfalso; apply Hnotin; now left|].
  reflexivity.
Qed.

Lemma kills_in_round (id : Z) (wk : Worker.t) (ws : list (Z * Worker.t)) :
  NoDup (map fst ws) ->
  In (id, wk) ws ->
  Worker.isDead wk = false ->
  List.length (filter (is_kill id) (flat_map (kill_round sprintf) ws)) = 1%nat.
Proof.
  intros Hnd Hin Halive.
  destruct (in_split _ _ Hin) as (l1 & l2 & ->).
  rewrite map_app in Hnd. cbn [map fst] in Hnd.
  assert (H1 : ~ In id (map fst l1)).
  { intros H. apply NoDup_remove_2 in Hnd. apply Hnd, in_or_app. now left. }
  assert (H2 : ~ In id (map fst l2)).
  { intros H. apply NoDup_remove_2 in Hnd. apply Hnd, in_or_app. now right. }
  rewrite flat_map_app. cbn [flat_map].
  rewrite !filter_app, (kills_of_absent id l1 H1), (kills_of_absent id l2 H2).
  unfold kill_round; cbn [fst snd]. rewrite Halive.
  cbn [filter is_kill app]. rewrite Z.eqb_refl. reflexivity.
Qed.

Lemma drain_kills (p : nat) (id : Z) (snapshots : list (list (Z * Worker.t))) :
  forall w : World,
    existsb (Nat.eqb p) (timers w) = true ->
    Forall (fun ws => NoDup (map fst ws) /\
                      exists wk, In (id, wk) ws /\ Worker.isDead wk = false)
           snapshots ->
    List.length (filter (is_kill id)
                   (events (drain sprintf kill_throws p snapshots w))) =
      List.length snapshots /\
    existsb pool_empty snapshots = false.
Proof.
  induction snapshots as [|ws rest IH]; intros w Hon Hall; [split; reflexivity|].
  inversion Hall as [|? ? (Hnd & wk & Hin & Halive) Hrest]; subst.
  rewrite drain_cons.
  assert (Hne : workers (cluster (set_workers ws w)) <> []).
  { destruct w; cbn. intros ->. exact Hin. }
  assert (Hon' : existsb (Nat.eqb p) (timers (set_workers ws w)) = true)
    by (destruct w; exact Hon).
  erewrite bind_outcome
    by (rewrite tick_armed by exact Hon'; apply interval_cb_nonempty; exact Hne).
  unfold prepend; cbn [events].
  destruct (IH (set_workers ws w) Hon' Hrest) as (Hcount & Hnone).
  rewrite filter_app, length_app, Hcount.
  replace (workers (cluster (set_workers ws w))) with ws by (destruct w; reflexivity).
  rewrite (flat_map_kill_round_of ws Hnd), (kills_in_round id wk ws Hnd Hin Halive).
  split; [reflexivity|].
  cbn [existsb]. rewrite Hnone. destruct ws; [contradiction|reflexivity].
Qed.

(** X12. The drain has no limit and no memory of failures: as long as a
    worker is in [cluster.workers] and not dead, every firing of the
    timer calls [kill] on it again, whether or not the earlier calls
    threw, and the promise stays pending. *)
Theorem drain_kills_again_every_round :
  forall (w : World) (id : Z) (snapshots : list (list (Z * Worker.t))),
    rs_procmode w = Some "master" ->
    opt_daemon (options w) = false ->
    opt_daemon_kill (options w) = false ->
    Forall (fun ws => NoDup (map fst ws) /\
                      exists wk, In (id, wk) ws /\ Worker.isDead wk = false)
           snapshots ->
    let p := fresh_handle w in
    let o := drain sprintf kill_throws p snapshots (world (stop w)) in
    result o = Ok tt /\
    List.length (filter (is_kill id) (events o)) = List.length snapshots /\
    promise_state p (world o) = Some Pending.
Proof.
  intros w id snapshots Hm Hd Hk Hall p o. subst o p.
  rewrite (stop_master w Hm Hd Hk). cbn [world].
  destruct (stop_master_pending w) as (Hon & Hpend). cbn zeta in Hon, Hpend.
  destruct (drain_kills _ id snapshots _ Hon Hall) as (Hcount & Hnone).
  destruct (drain_armed sprintf kill_throws _ snapshots _ Hon Hpend)
    as (Hr & Hp & _).
  rewrite Hnone in Hp. tauto.
Qed.

(** ** What [prepare] leaves alone *)


End Lifecycle.

(** ** These theorems at sample processes *)

Lemma lifecycle_event_logged_once_witness :
  cluster_on sample_running = lifecycle_handlers /\
  exists m : string,
    events (cluster_emit sprintf_ref
              (CeListening (Worker.mk 1 4711 false true false)
                           (mkAddress "0.0.0.0" 8080 4))
              sample_running) =
      [EvSv "log" ["cluster"; "trace"; m]].
Proof.
  split; [reflexivity|].
  destruct (lifecycle_event_logged_once sprintf_ref
              (CeListening (Worker.mk 1 4711 false true false)
                           (mkAddress "0.0.0.0" 8080 4))
              sample_running) as (_ & _ & m & Hm); [reflexivity|].
  exists m. exact Hm.
Defined.

Lemma respawn_once_per_crash_witness :
  cluster_on sample_running = lifecycle_handlers /\
  forks (events (cluster_emit_all sprintf_ref
                   [CeFork (Worker.mk 4 4714 false true false);
                    CeExit (Worker.mk 1 4711 false true true) (Some 1) None;
                    CeExit (Worker.mk 2 4712 true false true) (Some 0) None;
                    CeExit (Worker.mk 3 4713 false true true) None (Some "SIGKILL")]
                   sample_running)) = 2%nat.
Proof.
  split; [reflexivity|].
  destruct (respawn_once_per_crash sprintf_ref
              [CeFork (Worker.mk 4 4714 false true false);
               CeExit (Worker.mk 1 4711 false true true) (Some 1) None;
               CeExit (Worker.mk 2 4712 true false true) (Some 0) None;
               CeExit (Worker.mk 3 4713 false true true) None (Some "SIGKILL")]
              sample_running) as (_ & _ & H & _); [reflexivity|].
  exact H.
Defined.

Lemma prepare_twice_forks_twice_witness :
  cluster_on (sample_master 2) = [] /\
  forks (events (cluster_emit sprintf_ref
                   (CeExit (Worker.mk 1 4711 false true true) (Some 1) None)
                   (world (prepare sprintf_ref 2
                             (world (prepare sprintf_ref 2 (sample_master 2))))))) =
    2%nat.
Proof.
  split; [reflexivity|].
  destruct (prepare_twice_forks_twice sprintf_ref 2%nat (sample_master 2)
              (Worker.mk 1 4711 false true true) (Some 1) None)
    as (_ & H);
    [discriminate|reflexivity|reflexivity|reflexivity|cbn; lia|reflexivity|].
  exact H.
Defined.

Lemma crash_during_drain_still_forks_witness :
  cluster_on sample_running = lifecycle_handlers /\
  forks (events (cluster_emit sprintf_ref
                   (CeExit (Worker.mk 1 4711 false true true) (Some 1) None)
                   (world (drain sprintf_ref kill_throws_on_2
                             (fresh_handle sample_running) [sample_pool]
                             (world (stop sample_running)))))) = 1%nat.
Proof.
  split; [reflexivity|].
  destruct (crash_during_drain_still_forks sprintf_ref kill_throws_on_2
              sample_running [sample_pool]
              (Worker.mk 1 4711 false true true) (Some 1) None)
    as (_ & H); [reflexivity|].
  exact H.
Defined.

Lemma directive_sent_is_directive_understood_witness :
  In (EvSend 1 "shutdown") (events (stop sample_running)) /\
  List.length
    (filter is_shutdown_call
       (events (process_emit_message sprintf_ref (JsString "shutdown")
                  (world (prepare sprintf_ref 0 (sample_worker 3)))))) = 1%nat.
Proof.
  assert (Hsent : In (EvSend 1 "shutdown") (events (stop sample_running)))
    by (cbn; tauto).
  split; [exact Hsent|].
  destruct (directive_sent_is_directive_understood sprintf_ref sample_running 1
              "shutdown" (world (prepare sprintf_ref 0 (sample_worker 3))) Hsent)
    as (_ & _ & H & _); [reflexivity|discriminate|].
  exact H.
Defined.

Lemma worker_prepare_is_silent_witness :
  isMaster (cluster (sample_worker 3)) = false /\
  events (prepare sprintf_ref 0 (sample_worker 3)) = [].
Proof.
  split; [reflexivity|].
  destruct (worker_prepare_is_silent sprintf_ref 0%nat (sample_worker 3))
    as (_ & H & _); [reflexivity|].
  exact H.
Defined.

Lemma stop_after_prepare_witness :
  rs_procmode sample_worker_foreign = Some "master" /\
  stop (world (prepare sprintf_ref 3 sample_worker_foreign)) =
    mkOutcome (Ok None) (world (prepare sprintf_ref 3 sample_worker_foreign)) [].
Proof.
  split; [reflexivity|].
  destruct (stop_after_prepare sprintf_ref 3%nat sample_worker_foreign)
    as (_ & H); [discriminate|reflexivity|reflexivity|cbn; lia|].
  exact H.
Defined.

Lemma default_option_is_inert_witness :
  opt_cluster (options (sample_process 0 false true None)) =
    decl_default cluster_option /\
  prepare sprintf_ref 0 (sample_process 0 false true None) =
    mkOutcome (Ok tt) (sample_process 0 false true None) [].
Proof.
  split; [reflexivity|].
  destruct (default_option_is_inert sprintf_ref [] 0%nat
              (sample_process 0 false true None)) as (_ & _ & H); [reflexivity|].
  exact H.
Defined.

Lemma stop_again_starts_over_witness :
  rs_procmode sample_running = Some "master" /\
  events (stop (set_workers [(2, Worker.mk 2 4712 false true false)]
                  (world (stop sample_running)))) =
    [EvSv "log" ["cluster"; "info"; "shutdown WORKER processes"];
     EvSend 2 "shutdown"; EvDisconnect 2; EvSetInterval 2 100].
Proof.
  split; [reflexivity|].
  destruct (stop_again_starts_over sample_running
              [(2, Worker.mk 2 4712 false true false)])
    as (_ & _ & H & _); [reflexivity|reflexivity|reflexivity|].
  exact H.
Defined.

Lemma sample_pool_has_worker_2 :
  Forall (fun ws => NoDup (map fst ws) /\
                    exists wk, In (2, wk) ws /\ Worker.isDead wk = false)
         [sample_pool; sample_pool; sample_pool].
Proof.
  repeat constructor; try (cbn; intuition discriminate);
    exists (Worker.mk 2 4712 false false false); cbn; tauto.
Defined.

Lemma drain_kills_again_every_round_witness :
  kill_throws_on_2 sample_running 2 = true /\
  List.length
    (filter (is_kill 2)
       (events (drain sprintf_ref kill_throws_on_2 (fresh_handle sample_running)
                  [sample_pool; sample_pool; sample_pool]
                  (world (stop sample_running))))) = 3%nat.
Proof.
  split; [reflexivity|].
  destruct (drain_kills_again_every_round sprintf_ref kill_throws_on_2
              sample_running 2 [sample_pool; sample_pool; sample_pool])
    as (_ & H & _);
    [reflexivity|reflexivity|reflexivity|exact sample_pool_has_worker_2|].
  exact H.
Defined.

